(** * RuleChef: example buffer, learning coordinator and span evaluator

    A shallow embedding of [rulechef/buffer.py], [rulechef/coordinator.py]
    and [rulechef/evaluation.py], with the properties of their
    specification stated and proved over it.

    Conventions of the embedding.
    - A Python [int] is a [Z]; [len(l)] is [Z.of_nat (length l)].
    - A Python [float] obtained as the quotient of two integers is the
      exact rational ([Q]) with that value; comparisons of floats are
      comparisons of rationals.
    - A method run under [with self.lock] is atomic, so it is a function
      from the buffer before the call to the result and the buffer after
      it, and a concurrent execution is a sequence of such calls.
    - A dict with a fixed set of keys is a record; a key that a code path
      leaves absent is an [option] field. *)

From Stdlib Require Import ZArith QArith Lia Lqa List.
From Stdlib Require Import String DecimalString.
From stdpp Require Import base list gmap strings.

#[local] Set Warnings "-register-all".
#[local] Open Scope string_scope.
#[local] Open Scope list_scope.
#[local] Open Scope Z_scope.

(** ** Python values and helpers *)

(** The payload of an example ([Dict[str, Any]]): keys in insertion
    order. The buffer stores payloads and never inspects them. *)
Inductive PyVal : Type :=
| PyNone
| PyBool (b : bool)
| PyInt (z : Z)
| PyStr (s : string)
| PyList (l : list PyVal)
| PyDict (d : list (string * PyVal)).

Definition Dict : Type := list (string * PyVal).

(** [len(l)]. *)
Definition len {A : Type} (l : list A) : Z := Z.of_nat (length l).

(** [l[i:]]: a negative [i] counts from the end and is clamped at the
    start; an [i] beyond the end gives the empty list. *)
Definition slice_from {A : Type} (l : list A) (i : Z) : list A :=
  if i <? 0 then drop (Z.to_nat (Z.max 0 (len l + i))) l
  else drop (Z.to_nat i) l.

(** [l[i]]: a negative [i] counts from the end; out of range raises
    [IndexError], here [None]. *)
Definition index {A : Type} (l : list A) (i : Z) : option A :=
  if i <? 0 then
    (if len l + i <? 0 then None else l !! Z.to_nat (len l + i))
  else l !! Z.to_nat i.

(** [enumerate(l)], counting from [i]. *)
Fixpoint enumerate_from {A : Type} (i : Z) (l : list A) : list (Z * A) :=
  match l with
  | [] => []
  | x :: l' => (i, x) :: enumerate_from (i + 1) l'
  end.

Definition enumerate {A : Type} (l : list A) : list (Z * A) :=
  enumerate_from 0 l.

(** [str(n)] for an int. *)
Definition str (n : Z) : string := NilZero.string_of_int (Z.to_int n).

(** [x < y] and [x >= y] on floats. *)
Definition Qlt_bool (x y : Q) : bool := negb (Qle_bool y x).
Definition Qge_bool (x y : Q) : bool := Qle_bool y x.

(** ** buffer.py *)

Module Buffer.

(** [ObservedExample]. [timestamp] is the reading of [time.time()] at
    creation; it is supplied by the caller of the model. *)
Record ObservedExample : Type := mkObservedExample {
  input : Dict;
  output : Dict;
  source : string;
  is_correction : bool;
  timestamp : Q;
  metadata : Dict
}.

(** [ExampleBuffer]: the list and the cursor (the lock is the atomicity
    of the methods below). *)
Record ExampleBuffer : Type := mkExampleBuffer {
  examples : list ObservedExample;
  last_learn_index : Z
}.

(** [ExampleBuffer.__init__]. *)
Definition init : ExampleBuffer :=
  {| examples := []; last_learn_index := 0 |}.

(** The dict returned by [get_stats]. *)
Record Stats : Type := mkStats {
  total_examples : Z;
  new_examples : Z;
  new_corrections : Z;
  llm_observations : Z;
  human_examples : Z
}.

(** A method: its result and the buffer after the call. *)
Definition Method (A : Type) : Type := ExampleBuffer -> A * ExampleBuffer.

Definition append (e : ObservedExample) : Method unit := fun self =>
  (tt, {| examples := examples self ++ [e];
          last_learn_index := last_learn_index self |}).

(** [metadata or {}]. *)
Definition or_empty (metadata : option Dict) : Dict :=
  match metadata with
  | Some (kv :: d) => kv :: d
  | _ => []
  end.

Definition add_llm_observation (input_data output_data : Dict)
    (metadata : option Dict) (now : Q) : Method unit :=
  append {| input := input_data; output := output_data; source := "llm";
            is_correction := false; timestamp := now;
            metadata := or_empty metadata |}.

Definition add_human_example (input_data output_data : Dict) (now : Q)
    : Method unit :=
  append {| input := input_data; output := output_data; source := "human";
            is_correction := false; timestamp := now; metadata := [] |}.

Definition add_human_correction (input_data expected_output actual_output : Dict)
    (now : Q) : Method unit :=
  append {| input := input_data;
            output := [("expected", PyDict expected_output);
                       ("actual", PyDict actual_output)];
            source := "human"; is_correction := true; timestamp := now;
            metadata := [] |}.

Definition get_all_examples : Method (list ObservedExample) := fun self =>
  (examples self, self).

Definition get_new_examples : Method (list ObservedExample) := fun self =>
  (slice_from (examples self) (last_learn_index self), self).

Definition get_new_corrections : Method (list ObservedExample) := fun self =>
  let '(new, self) := get_new_examples self in
  (List.filter is_correction new, self).

Definition mark_learned : Method unit := fun self =>
  (tt, {| examples := examples self;
          last_learn_index := len (examples self) |}).

Definition get_stats : Method Stats := fun self =>
  let new_examples := slice_from (examples self) (last_learn_index self) in
  ({| total_examples := len (examples self);
      new_examples := len new_examples;
      new_corrections := len (List.filter is_correction new_examples);
      llm_observations :=
        len (List.filter (fun e => String.eqb (source e) "llm") new_examples);
      human_examples :=
        len (List.filter
               (fun e => String.eqb (source e) "human" && negb (is_correction e))
               new_examples) |},
   self).

Definition clear : Method unit := fun self =>
  (tt, {| examples := []; last_learn_index := 0 |}).

(** A call of a public method, with its arguments. *)
Inductive Call : Type :=
| AddLlmObservation (input_data output_data : Dict) (metadata : option Dict)
    (now : Q)
| AddHumanExample (input_data output_data : Dict) (now : Q)
| AddHumanCorrection (input_data expected_output actual_output : Dict)
    (now : Q)
| GetAllExamples
| GetNewExamples
| GetNewCorrections
| MarkLearned
| GetStats
| Clear.

(** What a call returns. *)
Inductive Reply : Type :=
| RNone
| RExamples (l : list ObservedExample)
| RStats (s : Stats).

Definition reply {A : Type} (f : A -> Reply) (m : Method A) : Method Reply :=
  fun self => let '(a, self') := m self in (f a, self').

Definition call (c : Call) : Method Reply :=
  match c with
  | AddLlmObservation i o m now =>
      reply (fun _ => RNone) (add_llm_observation i o m now)
  | AddHumanExample i o now => reply (fun _ => RNone) (add_human_example i o now)
  | AddHumanCorrection i e a now =>
      reply (fun _ => RNone) (add_human_correction i e a now)
  | GetAllExamples => reply RExamples get_all_examples
  | GetNewExamples => reply RExamples get_new_examples
  | GetNewCorrections => reply RExamples get_new_corrections
  | MarkLearned => reply (fun _ => RNone) mark_learned
  | GetStats => reply RStats get_stats
  | Clear => reply (fun _ => RNone) clear
  end.

(** The buffer after a call, and after a sequence of calls (the order in
    which the lock was taken). *)
Definition after (c : Call) (self : ExampleBuffer) : ExampleBuffer :=
  snd (call c self).

Definition run (cs : list Call) (self : ExampleBuffer) : ExampleBuffer :=
  fold_left (fun b c => after c b) cs self.

Definition is_add (c : Call) : bool :=
  match c with
  | AddLlmObservation _ _ _ _ | AddHumanExample _ _ _
  | AddHumanCorrection _ _ _ _ => true
  | _ => false
  end.

Definition is_llm_call (c : Call) : bool :=
  match c with
  | AddLlmObservation _ _ _ _ => true
  | _ => false
  end.

Definition is_correction_call (c : Call) : bool :=
  match c with
  | AddHumanCorrection _ _ _ _ => true
  | _ => false
  end.

(** The cursor stays within the list. *)
Definition cursor_ok (b : ExampleBuffer) : Prop :=
  0 <= last_learn_index b <= len (examples b).

(** No example is both LLM-sourced and a correction. *)
Definition sources_ok (b : ExampleBuffer) : Prop :=
  Forall (fun e => source e = "llm" -> is_correction e = false) (examples b).

(** The statistics as the specification words them: the total is the
    length of the whole sequence, the other counts are taken over the
    slice from the cursor onward; an LLM observation is an example with
    source llm that is not a correction, a human example one with source
    human that is not a correction. *)
Definition stats_as_specified (b : ExampleBuffer) : Stats :=
  let new := slice_from (examples b) (last_learn_index b) in
  {| total_examples := len (examples b);
     new_examples := len new;
     new_corrections := len (List.filter is_correction new);
     llm_observations :=
       len (List.filter
              (fun e => String.eqb (source e) "llm" && negb (is_correction e))
              new);
     human_examples :=
       len (List.filter
              (fun e => String.eqb (source e) "human" && negb (is_correction e))
              new) |}.

(** The examples a call puts into a new buffer: the one it appends, for
    an add call, and none for any other call. *)
Definition appended (c : Call) : list ObservedExample :=
  examples (after c init).

(** What the three add methods can put into the buffer: an LLM
    observation, a human example, or a human correction whose output
    bundles the expected and the actual result. *)
Definition example_ok (e : ObservedExample) : Prop :=
  (source e = "llm" /\ is_correction e = false)
  \/ (source e = "human" /\ is_correction e = false)
  \/ (source e = "human" /\ is_correction e = true
      /\ exists expected actual : Dict,
          output e = [("expected", PyDict expected);
                      ("actual", PyDict actual)]).

End Buffer.

(** ** coordinator.py *)

Module Coordinator.
Import Buffer.

Section WithRules.

(** [rulechef.core.Rule]: the coordinator only tests whether a rule set
    is present. *)
Variable Rule : Type.

(** The [metadata] dict of a decision of [SimpleCoordinator]. *)
Record DecisionMetadata : Type := mkDecisionMetadata {
  buffer_stats : Stats;
  meta_trigger_threshold : Z;
  meta_correction_threshold : Z
}.

(** [CoordinationDecision]. *)
Record CoordinationDecision : Type := mkCoordinationDecision {
  should_learn : bool;
  strategy : string;
  reasoning : string;
  max_iterations : Z;
  metadata : DecisionMetadata
}.

(** [SimpleCoordinator] and its [__init__] defaults. *)
Record SimpleCoordinator : Type := mkSimpleCoordinator {
  trigger_threshold : Z;
  correction_threshold : Z;
  verbose : bool
}.

Definition default : SimpleCoordinator :=
  {| trigger_threshold := 50; correction_threshold := 10; verbose := true |}.

Definition newline : string := String (Ascii.ascii_of_nat 10) EmptyString.

(** [SimpleCoordinator.should_trigger_learning]: the decision and the
    lines printed. The buffer is only read (through [get_stats]). *)
Definition should_trigger_learning (self : SimpleCoordinator)
    (buffer : ExampleBuffer) (current_rules : option (list Rule))
    : CoordinationDecision * list string :=
  let stats := fst (get_stats buffer) in
  let new_examples_count := new_examples stats in
  let corrections_count := new_corrections stats in
  let '(should_learn, reasoning, strategy, max_iterations) :=
    match current_rules with
    | None =>
        (new_examples_count >=? trigger_threshold self,
         "First learn: " +:+ str new_examples_count +:+ "/"
           +:+ str (trigger_threshold self) +:+ " examples",
         "balanced", 3)
    | Some _ =>
        let should_learn :=
          (new_examples_count >=? trigger_threshold self)
          || (corrections_count >=? correction_threshold self) in
        if corrections_count >=? correction_threshold self then
          (should_learn,
           "Corrections accumulated: " +:+ str corrections_count +:+ "/"
             +:+ str (correction_threshold self),
           "corrections_first", 2)
        else if new_examples_count >=? trigger_threshold self then
          (should_learn,
           "Examples accumulated: " +:+ str new_examples_count +:+ "/"
             +:+ str (trigger_threshold self),
           "diversity", 3)
        else
          (should_learn,
           "Not ready: " +:+ str new_examples_count +:+ "/"
             +:+ str (trigger_threshold self) +:+ " examples, "
             +:+ str corrections_count +:+ "/"
             +:+ str (correction_threshold self) +:+ " corrections",
           "balanced", 3)
    end in
  let printed :=
    if verbose self && should_learn then
      [newline +:+ "🔄 Coordinator decision: " +:+ reasoning;
       "   Strategy: " +:+ strategy +:+ ", max iterations: "
         +:+ str max_iterations]
    else [] in
  ({| should_learn := should_learn;
      strategy := strategy;
      reasoning := reasoning;
      max_iterations := max_iterations;
      metadata := {| buffer_stats := stats;
                     meta_trigger_threshold := trigger_threshold self;
                     meta_correction_threshold := correction_threshold self |} |},
   printed).

(** The decision alone. *)
Definition decide_learning (self : SimpleCoordinator) (buffer : ExampleBuffer)
    (current_rules : option (list Rule)) : CoordinationDecision :=
  fst (should_trigger_learning self buffer current_rules).

End WithRules.

Arguments should_trigger_learning {Rule} self buffer current_rules.
Arguments decide_learning {Rule} self buffer current_rules.

(** The dict returned by [analyze_buffer]: the stats and the two
    readiness flags. *)
Record Analysis : Type := mkAnalysis {
  analysis_stats : Stats;
  ready_for_first_learn : bool;
  ready_for_refinement : bool
}.

(** [SimpleCoordinator.analyze_buffer]. *)
Definition analyze_buffer (self : SimpleCoordinator) (buffer : ExampleBuffer)
    : Analysis :=
  let stats := fst (get_stats buffer) in
  {| analysis_stats := stats;
     ready_for_first_learn := new_examples stats >=? trigger_threshold self;
     ready_for_refinement :=
       (new_examples stats >=? trigger_threshold self)
       || (new_corrections stats >=? correction_threshold self) |}.

End Coordinator.

(** ** evaluation.py *)

Module Evaluation.

(** A span dict. A key may be absent: [span.get("start", 0)] reads an
    absent offset as 0, [span.get("start")] reads it as [None]. *)
Record Span : Type := mkSpan {
  text : option string;
  start : option Z;
  end_ : option Z
}.

(** [span.get("start", 0)] and [span.get("end", 0)]. *)
Definition get_start (span : Span) : Z := default 0 (start span).
Definition get_end (span : Span) : Z := default 0 (end_ span).

Definition span_iou (span1 span2 : Span) : Q :=
  let s1_start := get_start span1 in
  let s1_end := get_end span1 in
  let s2_start := get_start span2 in
  let s2_end := get_end span2 in
  let inter_start := Z.max s1_start s2_start in
  let inter_end := Z.min s1_end s2_end in
  let intersection := Z.max 0 (inter_end - inter_start) in
  let union := (s1_end - s1_start) + (s2_end - s2_start) - intersection in
  if union =? 0 then 0%Q
  else (inject_Z intersection / inject_Z union)%Q.

Definition boundary_distance (pred_span gold_span : Span) : Z :=
  let start_error := Z.abs (get_start pred_span - get_start gold_span) in
  let end_error := Z.abs (get_end pred_span - get_end gold_span) in
  (start_error + end_error) / 2.

(** One iteration of the loop of [find_best_match] on
    [(best_idx, best_iou)]. *)
Definition best_step (pred_span : Span) (best : Z * Q) (item : Z * Span)
    : Z * Q :=
  let '(idx, gold_span) := item in
  let iou := span_iou pred_span gold_span in
  if Qlt_bool (snd best) iou then (idx, iou) else best.

Definition best_scan (pred_span : Span) (items : list (Z * Span))
    (best : Z * Q) : Z * Q :=
  fold_left (best_step pred_span) items best.

Definition find_best_match (pred_span : Span) (gold_spans : list Span)
    (iou_threshold : Q) : Z * Q :=
  let '(best_idx, best_iou) :=
    best_scan pred_span (enumerate gold_spans) (-1, 0%Q) in
  if Qge_bool best_iou iou_threshold then (best_idx, best_iou)
  else (-1, 0%Q).

(** An entry of [boundary_errors]. *)
Record BoundaryError : Type := mkBoundaryError {
  predicted : Span;
  gold : Span;
  distance : Z;
  iou : Q
}.

(** The dict returned by [evaluate_spans]. The early return for an empty
    gold standard has no ["true_positives"] key. *)
Record Metrics : Type := mkMetrics {
  exact_matches : Z;
  partial_matches : Z;
  true_positives : option Z;
  false_positives : Z;
  false_negatives : Z;
  precision : Q;
  recall : Q;
  f1 : Q;
  accuracy_exact : Q;
  accuracy_partial : Q;
  boundary_errors : list BoundaryError
}.

(** The variables of the main loop of [evaluate_spans]. *)
Record Matching : Type := mkMatching {
  matched_gold : gset Z;
  m_exact_matches : Z;
  m_partial_matches : Z;
  m_boundary_errors : list BoundaryError
}.

Definition no_matching : Matching :=
  {| matched_gold := ∅; m_exact_matches := 0; m_partial_matches := 0;
     m_boundary_errors := [] |}.

(** The test of the inner loop: same text and position. *)
Definition same_span (pred gold : Span) : bool :=
  bool_decide (text pred = text gold)
  && bool_decide (start pred = start gold)
  && bool_decide (end_ pred = end_ gold).

(** The inner loop: the first index that is not yet matched and holds
    the same span, if there is one (the [break]). *)
Fixpoint first_exact (pred : Span) (matched : gset Z)
    (items : list (Z * Span)) : option Z :=
  match items with
  | [] => None
  | (gold_idx, gold) :: items' =>
      if bool_decide (gold_idx ∈ matched) then first_exact pred matched items'
      else if same_span pred gold then Some gold_idx
      else first_exact pred matched items'
  end.

(** The body of the main loop for one prediction; [None] when
    [gold_standard[best_idx]] raises. *)
Definition match_prediction (gold_standard : list Span)
    (exact_match_only : bool) (iou_threshold : Q) (m : Matching) (pred : Span)
    : option Matching :=
  let found := first_exact pred (matched_gold m) (enumerate gold_standard) in
  let m1 :=
    match found with
    | Some gold_idx =>
        {| matched_gold := matched_gold m ∪ {[gold_idx]};
           m_exact_matches := m_exact_matches m + 1;
           m_partial_matches := m_partial_matches m;
           m_boundary_errors := m_boundary_errors m |}
    | None => m
    end in
  let found_exact := bool_decide (is_Some found) in
  if negb found_exact && negb exact_match_only then
    let '(best_idx, iou) :=
      find_best_match pred gold_standard iou_threshold in
    if negb (best_idx =? -1) && negb (bool_decide (best_idx ∈ matched_gold m1))
    then
      match index gold_standard best_idx with
      | Some gold =>
          Some {| matched_gold := matched_gold m1 ∪ {[best_idx]};
                  m_exact_matches := m_exact_matches m1;
                  m_partial_matches := m_partial_matches m1 + 1;
                  m_boundary_errors :=
                    m_boundary_errors m1
                    ++ [{| predicted := pred; gold := gold;
                           distance := boundary_distance pred gold;
                           iou := iou |}] |}
      | None => None
      end
    else Some m1
  else Some m1.

(** The main loop. *)
Fixpoint match_all (gold_standard : list Span) (exact_match_only : bool)
    (iou_threshold : Q) (predictions : list Span) (m : Matching)
    : option Matching :=
  match predictions with
  | [] => Some m
  | pred :: predictions' =>
      match match_prediction gold_standard exact_match_only iou_threshold
              m pred with
      | Some m' =>
          match_all gold_standard exact_match_only iou_threshold
            predictions' m'
      | None => None
      end
  end.

(** [a / b] on ints (true division). *)
Definition ratio (a b : Z) : Q := (inject_Z a / inject_Z b)%Q.

(** The record built from the loop's final variables. *)
Definition summarize (predictions gold_standard : list Span) (m : Matching)
    : Metrics :=
  let exact_matches := m_exact_matches m in
  let partial_matches := m_partial_matches m in
  let true_positives := exact_matches + partial_matches in
  let false_positives := len predictions - true_positives in
  let false_negatives :=
    len gold_standard - Z.of_nat (size (matched_gold m)) in
  let precision :=
    if true_positives + false_positives >? 0
    then ratio true_positives (true_positives + false_positives) else 0%Q in
  let recall :=
    if true_positives + false_negatives >? 0
    then ratio true_positives (true_positives + false_negatives) else 0%Q in
  let f1 :=
    if Qlt_bool 0 (precision + recall)
    then (2 * (precision * recall) / (precision + recall))%Q else 0%Q in
  {| exact_matches := exact_matches;
     partial_matches := partial_matches;
     true_positives := Some true_positives;
     false_positives := false_positives;
     false_negatives := false_negatives;
     precision := precision;
     recall := recall;
     f1 := f1;
     accuracy_exact :=
       match gold_standard with
       | [] => 0%Q
       | _ => ratio exact_matches (len gold_standard)
       end;
     accuracy_partial :=
       match gold_standard with
       | [] => 0%Q
       | _ => ratio true_positives (len gold_standard)
       end;
     boundary_errors := m_boundary_errors m |}.

(** [evaluate_spans]; [None] when the call raises. *)
Definition evaluate_spans (predictions gold_standard : list Span)
    (exact_match_only : bool) (iou_threshold : Q) : option Metrics :=
  match gold_standard with
  | [] =>
      Some {| exact_matches := 0;
              partial_matches := 0;
              true_positives := None;
              false_positives := len predictions;
              false_negatives := 0;
              precision := 0;
              recall := 0;
              f1 := 0;
              accuracy_exact := 0;
              accuracy_partial := 0;
              boundary_errors := [] |}
  | _ :: _ =>
      match match_all gold_standard exact_match_only iou_threshold
              predictions no_matching with
      | Some m => Some (summarize predictions gold_standard m)
      | None => None
      end
  end.

(** What the loop of [find_best_match] has tracked once it has gone
    through [golds]: a bound on every IoU, which is either the initial
    [(-1, 0.0)] or the first gold span of greatest IoU, that IoU being
    positive. *)
Definition tracked (pred_span : Span) (golds : list Span) (best : Z * Q)
    : Prop :=
  (forall (i : nat) (g : Span),
      golds !! i = Some g -> (span_iou pred_span g <= snd best)%Q)
  /\ (best = (-1, 0%Q)
      \/ exists (i : nat) (g : Span),
          fst best = Z.of_nat i
          /\ golds !! i = Some g
          /\ snd best = span_iou pred_span g
          /\ (0 < snd best)%Q
          /\ forall (j : nat) (g' : Span),
              (j < i)%nat -> golds !! j = Some g' ->
              (span_iou pred_span g' < snd best)%Q).

(** The loop variables are consistent after [n] predictions were
    processed against [golds]. *)
Definition matching_ok (golds : list Span) (n : Z) (m : Matching) : Prop :=
  0 <= m_exact_matches m
  /\ 0 <= m_partial_matches m
  /\ m_exact_matches m + m_partial_matches m
     = Z.of_nat (size (matched_gold m))
  /\ m_exact_matches m + m_partial_matches m <= n
  /\ forall i : Z, i ∈ matched_gold m -> 0 <= i < len golds.

(** A rate lies between 0 and 1. *)
Definition unit_rate (q : Q) : Prop := (0 <= q)%Q /\ (q <= 1)%Q.

(** A well-formed span literal [{"text": t, "start": s, "end": e}]. *)
Definition span (t : string) (s e : Z) : Span :=
  {| text := Some t; start := Some s; end_ := Some e |}.

(** *** [print_eval_report] *)

(** The exception of a subscript [d[key]] on an absent key. *)
Inductive Raised : Type :=
| KeyError (key : string).

(** What a printing function did: the arguments of its [print] calls,
    in order, and the exception that ended it, if one did. *)
Definition Printed : Type := list string * option Raised.

Definition print (line : string) : Printed := ([line], None).

(** [a] and then [b]; [b] does not run when [a] raises. *)
Definition and_then (a b : Printed) : Printed :=
  match snd a with
  | Some _ => a
  | None => (fst a ++ fst b, snd b)
  end.

#[local] Infix ">>>" := and_then (at level 61, left associativity).

(** [d[key]], and what is done with the value. *)
Definition subscript {A : Type} (key : string) (v : option A)
    (k : A -> Printed) : Printed :=
  match v with
  | Some a => k a
  | None => ([], Some (KeyError key))
  end.

Definition newline : string := String (Ascii.ascii_of_nat 10) EmptyString.

(** [c * n] on a string. *)
Fixpoint times (c : string) (n : nat) : string :=
  match n with
  | O => EmptyString
  | S n' => c +:+ times c n'
  end.

Section Report.

(** The format specifications [:.1%] and [:.2f] of a float. *)
Variable percent1 : Q -> string.
Variable fixed2 : Q -> string.

(** [print(f"<label>'{s['text']}' [{s['start']}:{s['end']}]")]. *)
Definition print_span (label : string) (s : Span) : Printed :=
  subscript "text" (text s) (fun t =>
  subscript "start" (start s) (fun st =>
  subscript "end" (end_ s) (fun en =>
  print (label +:+ "'" +:+ t +:+ "' [" +:+ str st +:+ ":" +:+ str en
           +:+ "]")))).

(** The body of the loop over the sample of boundary errors. *)
Definition print_boundary_error (error : BoundaryError) : Printed :=
  print_span "Predicted: " (predicted error)
  >>> print_span "Gold:      " (gold error)
  >>> print ("Boundary offset: Â±" +:+ str (distance error)
              +:+ " chars, IoU: " +:+ fixed2 (iou error))
  >>> print "".

Fixpoint print_boundary_errors (errors : list BoundaryError) : Printed :=
  match errors with
  | [] => ([], None)
  | error :: errors' =>
      print_boundary_error error >>> print_boundary_errors errors'
  end.

Definition print_eval_report (metrics : Metrics) (dataset_name : string)
    : Printed :=
  print (newline +:+ times "=" 70)
  >>> print ("EVALUATION REPORT: " +:+ dataset_name)
  >>> print (times "=" 70 +:+ newline)
  >>> print "SPAN EXTRACTION METRICS"
  >>> print (times "-" 70)
  >>> print ("Exact Match Accuracy:    " +:+ percent1 (accuracy_exact metrics))
  >>> print ("Partial Match Accuracy:  "
              +:+ percent1 (accuracy_partial metrics) +:+ " (IoU > 0.5)")
  >>> print ""
  >>> print "DETAILED METRICS"
  >>> print (times "-" 70)
  >>> print ("Precision: " +:+ percent1 (precision metrics))
  >>> print ("Recall:    " +:+ percent1 (recall metrics))
  >>> print ("F1 Score:  " +:+ percent1 (f1 metrics))
  >>> print ""
  >>> print "CONFUSION"
  >>> print (times "-" 70)
  >>> subscript "true_positives" (true_positives metrics) (fun tp =>
       print ("True Positives:  " +:+ str tp))
  >>> print ("False Positives: " +:+ str (false_positives metrics))
  >>> print ("False Negatives: " +:+ str (false_negatives metrics))
  >>> print ""
  >>> match boundary_errors metrics with
     | [] => ([], None)
     | _ :: _ =>
         print "BOUNDARY ERRORS (Sample)"
         >>> print (times "-" 70)
         >>> print_boundary_errors (take 5 (boundary_errors metrics))
     end
  >>> print (times "=" 70 +:+ newline).

End Report.

(** The span has its three keys. *)
Definition has_keys (s : Span) : Prop :=
  is_Some (text s) /\ is_Some (start s) /\ is_Some (end_ s).

(** The intersection and the union that [span_iou] computes. *)
Definition intersection (span1 span2 : Span) : Z :=
  Z.max 0 (Z.min (get_end span1) (get_end span2)
           - Z.max (get_start span1) (get_start span2)).

Definition union (span1 span2 : Span) : Z :=
  (get_end span1 - get_start span1) + (get_end span2 - get_start span2)
  - intersection span1 span2.

(** The loop variables after the first [k] gold spans were matched
    exactly by the first [k] predictions. *)
Definition first_matched (k : nat) (m : Matching) : Prop :=
  m_exact_matches m = Z.of_nat k
  /\ m_partial_matches m = 0
  /\ m_boundary_errors m = []
  /\ size (matched_gold m) = k
  /\ forall i : Z, i ∈ matched_gold m <-> 0 <= i < Z.of_nat k.

(** What every recorded boundary error satisfies. *)
Definition boundary_error_ok (predictions gold_standard : list Span)
    (iou_threshold : Q) (e : BoundaryError) : Prop :=
  predicted e ∈ predictions
  /\ gold e ∈ gold_standard
  /\ same_span (predicted e) (gold e) = false
  /\ distance e = boundary_distance (predicted e) (gold e)
  /\ iou e = span_iou (predicted e) (gold e)
  /\ (0 < iou e)%Q
  /\ (iou_threshold <= iou e)%Q.

(** The loop variables record one boundary error per partial match. *)
Definition errors_ok (predictions gold_standard : list Span)
    (iou_threshold : Q) (m : Matching) : Prop :=
  len (m_boundary_errors m) = m_partial_matches m
  /\ Forall (boundary_error_ok predictions gold_standard iou_threshold)
       (m_boundary_errors m).

End Evaluation.


(** ** Concrete executions used below *)

Module Scenario.
Import Buffer Coordinator Evaluation.

(** One example added and learned from, before the buffer is cleared. *)
Definition learned_once : list Call :=
  [AddHumanExample [] [] 0; MarkLearned].

(** [n] LLM observations. *)
Definition observations (n : nat) : list Call :=
  repeat (AddLlmObservation [] [] None 0) n.

(** [n] human corrections. *)
Definition corrections (n : nat) : list Call :=
  repeat (AddHumanCorrection [] [] [] 0) n.

(** Some examples learned from, then 3 LLM observations and 2 human
    corrections. *)
Definition three_and_two : list Call :=
  observations 4 ++ [MarkLearned] ++ observations 3 ++ corrections 2.

Definition coordinator (trigger correction : Z) : SimpleCoordinator :=
  {| trigger_threshold := trigger; correction_threshold := correction;
     verbose := true |}.

(** Gold spans A = [0, 10) and B = [0, 8); predictions A and then
    C = [0, 9), which overlaps A by 9/10 and B by 8/9. *)
Definition gold_AB : list Span := [span "A" 0 10; span "B" 0 8].
Definition pred_A : Span := span "A" 0 10.
Definition pred_C : Span := span "C" 0 9.

(** The loop variables after [pred_A] was matched exactly with gold
    index 0. *)
Definition A_matched : Matching :=
  {| matched_gold := {[0]}; m_exact_matches := 1; m_partial_matches := 0;
     m_boundary_errors := [] |}.

(** The last scenario of the specification. *)
Definition pred_one : list Span := [span "A" 0 1].
Definition gold_two : list Span := [span "A" 0 1; span "B" 2 3].

End Scenario.

(** * Properties *)

(** ** Helpers on lists *)

Lemma len_nonneg {A : Type} (l : list A) : 0 <= len l.
Proof. unfold len. lia. Qed.

Lemma len_app {A : Type} (l k : list A) : len (l ++ k) = len l + len k.
Proof. unfold len. rewrite length_app. lia. Qed.

Lemma slice_from_len {A : Type} (l : list A) : slice_from l (len l) = [].
Proof.
  unfold slice_from. pose proof (len_nonneg l) as H.
  destruct (Z.ltb_spec (len l) 0) as [?|_]; [lia|].
  unfold len. rewrite Nat2Z.id. apply drop_all.
Qed.

Lemma slice_from_app {A : Type} (l k : list A) (i : Z) :
  0 <= i <= len l -> slice_from (l ++ k) i = slice_from l i ++ k.
Proof.
  intros [H0 H1]. unfold slice_from.
  destruct (Z.ltb_spec i 0) as [?|_]; [lia|].
  rewrite drop_app_le; [reflexivity|]. unfold len in H1. lia.
Qed.

(** ** The example buffer *)

Module BufferFacts.
Import Buffer.

Lemma run_snoc (cs : list Call) (c : Call) (b : ExampleBuffer) :
  run (cs ++ [c]) b = after c (run cs b).
Proof. unfold run. rewrite fold_left_app. reflexivity. Qed.

Lemma run_app (cs ds : list Call) (b : ExampleBuffer) :
  run (cs ++ ds) b = run ds (run cs b).
Proof. unfold run. apply fold_left_app. Qed.

(** What each call does to the list and to the cursor. *)
Lemma after_shape (c : Call) (b : ExampleBuffer) :
  (exists e, is_add c = true /\
     after c b = {| examples := examples b ++ [e];
                    last_learn_index := last_learn_index b |} /\
     (source e = "llm" -> is_correction e = false))
  \/ (c = MarkLearned /\
      after c b = {| examples := examples b;
                     last_learn_index := len (examples b) |})
  \/ (c = Clear /\ after c b = init)
  \/ (is_add c = false /\ c <> MarkLearned /\ c <> Clear /\ after c b = b).
Proof.
  destruct c; cbn;
    try (left; eexists; split; [reflexivity|split; [reflexivity|]];
         cbn; first [reflexivity | discriminate]);
    try (right; left; split; reflexivity);
    try (right; right; left; split; reflexivity);
    right; right; right; repeat split; discriminate.
Qed.

Lemma cursor_ok_after (c : Call) (b : ExampleBuffer) :
  cursor_ok b -> cursor_ok (after c b).
Proof.
  unfold cursor_ok. intros H. pose proof (len_nonneg (examples b)).
  destruct (after_shape c b)
    as [(e & _ & -> & _)|[(_ & ->)|[(_ & ->)|(_ & _ & _ & ->)]]]; cbn.
  - rewrite len_app. change (len [e]) with 1. lia.
  - lia.
  - unfold len; cbn; lia.
  - lia.
Qed.

Lemma cursor_ok_run (cs : list Call) : cursor_ok (run cs init).
Proof.
  induction cs as [|c cs IH] using rev_ind.
  - unfold cursor_ok, len. cbn. lia.
  - rewrite run_snoc. apply cursor_ok_after, IH.
Qed.

Lemma sources_ok_run (cs : list Call) : sources_ok (run cs init).
Proof.
  induction cs as [|c cs IH] using rev_ind.
  - constructor.
  - rewrite run_snoc. unfold sources_ok in *.
    destruct (after_shape c (run cs init))
      as [(e & _ & -> & He)|[(_ & ->)|[(_ & ->)|(_ & _ & _ & ->)]]]; cbn.
    + apply Forall_app. split; [exact IH|]. constructor; [exact He|constructor].
    + exact IH.
    + constructor.
    + exact IH.
Qed.

End BufferFacts.

Module BufferProperties.
Import Buffer BufferFacts Scenario.

Lemma filter_ext_Forall {A : Type} (f g : A -> bool) (l : list A) :
  Forall (fun x => f x = g x) l -> List.filter f l = List.filter g l.
Proof.
  induction 1 as [|x l Hx _ IH]; cbn; [reflexivity|].
  rewrite Hx, IH. reflexivity.
Qed.

Lemma Forall_slice_from {A : Type} (P : A -> Prop) (l : list A) (i : Z) :
  Forall P l -> Forall P (slice_from l i).
Proof.
  intros H. unfold slice_from. destruct (i <? 0); apply Forall_drop, H.
Qed.

(** After [mark_learned] nothing is new, whatever the buffer held. *)
Lemma mark_learned_no_new (b : ExampleBuffer) :
  fst (get_new_examples (after MarkLearned b)) = []
  /\ new_examples (fst (get_stats (after MarkLearned b))) = 0.
Proof.
  cbn. rewrite slice_from_len. split; reflexivity.
Qed.

Lemma total_after_adds (cs : list Call) (b : ExampleBuffer) :
  forallb is_add cs = true ->
  len (examples (run cs b)) = len (examples b) + len cs.
Proof.
  induction cs as [|c cs IH] using rev_ind; intros Hadd.
  - cbn. unfold len at 3. cbn. lia.
  - rewrite forallb_app in Hadd. apply andb_prop in Hadd as [Hcs Hc].
    cbn in Hc. rewrite andb_true_r in Hc.
    rewrite run_snoc, len_app.
    destruct (after_shape c (run cs b))
      as [(e & _ & -> & _)|[(-> & _)|[(-> & _)|(Hn & _)]]];
      try discriminate; [|congruence].
    cbn. rewrite len_app, IH by exact Hcs.
    change (len [e]) with 1. change (len [c]) with 1. lia.
Qed.



(** C3: in every state of a buffer (one reached from a new buffer by
    calls of its public methods), [get_stats] returns the statistics as
    the specification words them, and leaves the buffer unchanged. *)
Theorem get_stats_as_specified :
  forall cs : list Call,
    let b := run cs init in
    fst (get_stats b) = stats_as_specified b /\ snd (get_stats b) = b.
Proof.
  intros cs b. split; [|reflexivity].
  unfold get_stats, stats_as_specified. cbn. f_equal. f_equal.
  apply filter_ext_Forall.
  pose proof (sources_ok_run cs) as Hs. fold b in Hs.
  eapply Forall_impl; [apply Forall_slice_from, Hs|].
  cbn. intros e He. destruct (String.eqb_spec (source e) "llm") as [Hl|_].
  - rewrite (He Hl). reflexivity.
  - reflexivity.
Qed.

(** C8: after any sequence of [add_llm_observation], [add_human_example]
    and [add_human_correction] calls on a new buffer, [total_examples]
    is the number of calls; and right after [mark_learned],
    [get_new_examples] returns the empty list and [new_examples] is 0
    (while [total_examples] is still the number of calls). *)
Theorem total_counts_adds :
  forall cs : list Call,
    forallb is_add cs = true ->
    let b := run cs init in
    total_examples (fst (get_stats b)) = len cs
    /\ fst (get_new_examples (after MarkLearned b)) = []
    /\ new_examples (fst (get_stats (after MarkLearned b))) = 0
    /\ total_examples (fst (get_stats (after MarkLearned b))) = len cs.
Proof.
  intros cs Hadd b.
  pose proof (total_after_adds cs init Hadd) as Ht. fold b in Ht.
  change (len (examples init)) with 0 in Ht.
  destruct (mark_learned_no_new b) as [Hn Hs].
  repeat split; [cbn; lia|exact Hn|exact Hs|cbn; lia].
Qed.

(** Three LLM observations and two corrections on a new buffer. *)
Lemma total_counts_adds_witness :
  let b := run (observations 3 ++ corrections 2) init in
  total_examples (fst (get_stats b)) = 5
  /\ fst (get_new_examples (after MarkLearned b)) = []
  /\ new_examples (fst (get_stats (after MarkLearned b))) = 0
  /\ total_examples (fst (get_stats (after MarkLearned b))) = 5.
Proof.
  exact (total_counts_adds (observations 3 ++ corrections 2) eq_refl).
Defined.

(** C9: a second [mark_learned] right after a first one changes nothing:
    the buffer, and so the cursor and the reply to every later call, is
    the same as after the first. *)
Theorem mark_learned_idempotent :
  forall b : ExampleBuffer,
    let b1 := after MarkLearned b in
    let b2 := after MarkLearned b1 in
    last_learn_index b2 = last_learn_index b1
    /\ b2 = b1
    /\ (forall c : Call, call c b2 = call c b1)
    /\ (forall cs : list Call, run cs b2 = run cs b1).
Proof.
  intros b b1 b2. assert (H : b2 = b1) by reflexivity.
  rewrite H. repeat split.
Qed.

End BufferProperties.

(** ** The heuristic coordinator *)

Module CoordinatorProperties.
Import Buffer BufferFacts Coordinator Scenario.

(** The examples appended by a sequence of add calls. *)
Lemma adds_append (news : list Call) (b : ExampleBuffer) :
  forallb is_add news = true ->
  exists es : list ObservedExample,
    run news b = {| examples := examples b ++ es;
                    last_learn_index := last_learn_index b |}
    /\ len es = len news
    /\ len (List.filter is_correction es)
       = len (List.filter is_correction_call news).
Proof.
  induction news as [|c news IH] using rev_ind; intros Hadd.
  - exists []. cbn. rewrite app_nil_r. destruct b; repeat split.
  - rewrite forallb_app in Hadd. apply andb_prop in Hadd as [Hnews Hc].
    cbn in Hc. rewrite andb_true_r in Hc.
    destruct (IH Hnews) as (es & Hrun & Hlen & Hcor).
    rewrite run_snoc, Hrun.
    destruct c; try discriminate; cbn; eexists (es ++ [_]);
      rewrite <- app_assoc; (split; [reflexivity|]);
      rewrite !List.filter_app, !len_app, Hlen, Hcor; cbn; split; reflexivity.
Qed.

(** The counts that the coordinator reads, when the calls [news] (all of
    them adds) follow a [mark_learned]. *)
Lemma stats_since_mark (prior news : list Call) :
  forallb is_add news = true ->
  let s := fst (get_stats (run (prior ++ [MarkLearned] ++ news) init)) in
  new_examples s = len news
  /\ new_corrections s = len (List.filter is_correction_call news).
Proof.
  intros Hadd. rewrite !run_app.
  set (b := run prior init).
  destruct (adds_append news (run [MarkLearned] b) Hadd)
    as (es & Hrun & Hlen & Hcor).
  rewrite Hrun. cbn.
  rewrite slice_from_app by (pose proof (len_nonneg (examples b)); lia).
  rewrite slice_from_len. cbn. split; assumption.
Qed.

(** C4: with a rule set present, as soon as the new corrections reach
    [correction_threshold] the decision is to learn with strategy
    corrections_first and 2 iterations, whatever the number of new
    examples. In particular, with thresholds 5 and 2, after a
    [mark_learned] followed by 3 LLM observations and 2 human
    corrections (5 new examples, which also reaches the trigger
    threshold), the decision is (true, corrections_first, 2). *)
Theorem corrections_take_priority :
  forall (Rule : Type) (self : SimpleCoordinator),
    (forall (buffer : ExampleBuffer) (rules : list Rule),
        correction_threshold self <= new_corrections (fst (get_stats buffer)) ->
        let d := decide_learning self buffer (Some rules) in
        should_learn d = true
        /\ strategy d = "corrections_first"
        /\ max_iterations d = 2)
    /\ (forall (prior news : list Call) (rules : list Rule),
          trigger_threshold self = 5 ->
          correction_threshold self = 2 ->
          forallb is_add news = true ->
          len news = 5 ->
          len (List.filter is_llm_call news) = 3 ->
          len (List.filter is_correction_call news) = 2 ->
          let buffer := run (prior ++ [MarkLearned] ++ news) init in
          let d := decide_learning self buffer (Some rules) in
          trigger_threshold self <= new_examples (fst (get_stats buffer))
          /\ should_learn d = true
          /\ strategy d = "corrections_first"
          /\ max_iterations d = 2).
Proof.
  intros Rule self.
  assert (General : forall (buffer : ExampleBuffer) (rules : list Rule),
             correction_threshold self
             <= new_corrections (fst (get_stats buffer)) ->
             let d := decide_learning self buffer (Some rules) in
             should_learn d = true /\ strategy d = "corrections_first"
             /\ max_iterations d = 2).
  { intros buffer rules HC d. subst d.
    unfold decide_learning, should_trigger_learning.
    apply Z.geb_le in HC. rewrite HC, orb_true_r. cbn. repeat split. }
  split; [exact General|].
  intros prior news rules Ht Hc Hadd Hlen _ Hcor buffer d.
  destruct (stats_since_mark prior news Hadd) as [HE HC].
  fold buffer in HE, HC.
  split; [rewrite HE, Ht, Hlen; lia|].
  apply General. fold buffer. rewrite HC, Hc, Hcor. lia.
Qed.

(** Thresholds 5 and 2, after four learned observations, three new
    observations and two corrections. *)
Lemma corrections_take_priority_witness :
  let d := decide_learning (Rule := unit) (coordinator 5 2)
             (run three_and_two init) (Some []) in
  new_corrections (fst (get_stats (run three_and_two init))) = 2
  /\ should_learn d = true
  /\ strategy d = "corrections_first"
  /\ max_iterations d = 2.
Proof.
  split; [reflexivity|].
  apply (proj1 (corrections_take_priority unit (coordinator 5 2))
           (run three_and_two init) []).
  vm_compute. discriminate.
Defined.

(** C6: without a rule set (first learn) the decision is to learn
    exactly when the new examples reach [trigger_threshold], always
    with strategy balanced and 3 iterations. In particular, with
    threshold 10, a buffer with 9 new examples gives no learning, and
    after one more example is added it gives (true, balanced, 3). *)
Theorem first_learn_decision :
  forall (Rule : Type) (self : SimpleCoordinator),
    (forall buffer : ExampleBuffer,
        let d := decide_learning (Rule := Rule) self buffer None in
        (should_learn d = true
         <-> trigger_threshold self <= new_examples (fst (get_stats buffer)))
        /\ strategy d = "balanced"
        /\ max_iterations d = 3)
    /\ (forall (cs : list Call) (c : Call),
          trigger_threshold self = 10 ->
          new_examples (fst (get_stats (run cs init))) = 9 ->
          is_add c = true ->
          let d := decide_learning (Rule := Rule) self (run cs init) None in
          let d' :=
            decide_learning (Rule := Rule) self (run (cs ++ [c]) init) None in
          should_learn d = false
          /\ should_learn d' = true
          /\ strategy d' = "balanced"
          /\ max_iterations d' = 3).
Proof.
  intros Rule self.
  assert (General : forall buffer : ExampleBuffer,
             let d := decide_learning (Rule := Rule) self buffer None in
             (should_learn d = true
              <-> trigger_threshold self
                  <= new_examples (fst (get_stats buffer)))
             /\ strategy d = "balanced" /\ max_iterations d = 3).
  { intros buffer d. subst d. unfold decide_learning, should_trigger_learning.
    cbn. rewrite Z.geb_le. repeat split; auto. }
  split; [exact General|].
  intros cs c Ht HE Hc d d'.
  destruct (General (run cs init)) as (Hd & _ & _). fold d in Hd.
  destruct (General (run (cs ++ [c]) init)) as (Hd' & Hs & Hm).
  fold d' in Hd', Hs, Hm.
  split; [|split; [|split; assumption]].
  - destruct (should_learn d); [|reflexivity].
    assert (trigger_threshold self <= 9) by (rewrite <- HE; apply Hd; reflexivity).
    lia.
  - apply Hd'. rewrite run_snoc.
    pose proof (cursor_ok_run cs) as Hok. unfold cursor_ok in Hok.
    destruct (after_shape c (run cs init))
      as [(e & _ & -> & _)|[(-> & _)|[(-> & _)|(Hn & _)]]];
      try discriminate; [|congruence].
    cbn in HE |- *. rewrite slice_from_app by exact Hok.
    rewrite len_app, HE, Ht. change (len [e]) with 1. lia.
Qed.

(** Threshold 10, nine observations and then a human example. *)
Lemma first_learn_decision_witness :
  let d := decide_learning (Rule := unit) (coordinator 10 10)
             (run (observations 9) init) None in
  let d' := decide_learning (Rule := unit) (coordinator 10 10)
              (run (observations 9 ++ [AddHumanExample [] [] 0]) init) None in
  should_learn d = false
  /\ should_learn d' = true
  /\ strategy d' = "balanced"
  /\ max_iterations d' = 3.
Proof.
  exact (proj2 (first_learn_decision unit (coordinator 10 10))
           (observations 9) (AddHumanExample [] [] 0)
           eq_refl eq_refl eq_refl).
Defined.

End CoordinatorProperties.

(** ** The span evaluator *)

Module EvaluationFacts.
Import Evaluation.

Lemma Qlt_bool_iff (x y : Q) : Qlt_bool x y = true <-> (x < y)%Q.
Proof.
  unfold Qlt_bool. rewrite negb_true_iff.
  destruct (Qle_bool y x) eqn:E.
  - apply Qle_bool_iff in E. split; [discriminate|].
    intros H. exfalso. exact (Qlt_not_le _ _ H E).
  - split; [intros _|reflexivity]. apply Qnot_le_lt. intros H.
    apply Qle_bool_iff in H. congruence.
Qed.

Lemma Qlt_bool_false (x y : Q) : Qlt_bool x y = false -> (y <= x)%Q.
Proof.
  unfold Qlt_bool. rewrite negb_false_iff. apply Qle_bool_iff.
Qed.

Lemma Qge_bool_iff (x y : Q) : Qge_bool x y = true <-> (y <= x)%Q.
Proof. unfold Qge_bool. apply Qle_bool_iff. Qed.

Lemma enumerate_from_app {A : Type} (l k : list A) (i : Z) :
  enumerate_from i (l ++ k)
  = enumerate_from i l ++ enumerate_from (i + len l) k.
Proof.
  revert i. induction l as [|x l IH]; intros i; cbn.
  - f_equal. unfold len. cbn. lia.
  - rewrite IH. do 3 f_equal. unfold len. cbn. lia.
Qed.

Lemma enumerate_snoc {A : Type} (l : list A) (x : A) :
  enumerate (l ++ [x]) = enumerate l ++ [(len l, x)].
Proof. unfold enumerate. rewrite enumerate_from_app. reflexivity. Qed.

Lemma best_scan_snoc (pred_span : Span) (golds : list Span) (g : Span)
    (best : Z * Q) :
  best_scan pred_span (enumerate (golds ++ [g])) best
  = best_step pred_span (best_scan pred_span (enumerate golds) best)
      (len golds, g).
Proof.
  unfold best_scan. rewrite enumerate_snoc, fold_left_app. reflexivity.
Qed.

Lemma tracked_nonneg (pred_span : Span) (golds : list Span) (best : Z * Q) :
  tracked pred_span golds best -> (0 <= snd best)%Q.
Proof.
  intros [_ [->|(i & g & _ & _ & _ & H & _)]].
  - apply Qle_refl.
  - apply Qlt_le_weak, H.
Qed.

(** The loop of [find_best_match] keeps the first gold span of greatest
    positive IoU. *)
Lemma best_scan_tracked (pred_span : Span) (golds : list Span) :
  tracked pred_span golds
    (best_scan pred_span (enumerate golds) (-1, 0%Q)).
Proof.
  induction golds as [|g golds IH] using rev_ind.
  - split; [intros i g H; destruct i; discriminate|left; reflexivity].
  - rewrite best_scan_snoc.
    set (best := best_scan pred_span (enumerate golds) (-1, 0%Q)) in *.
    pose proof (tracked_nonneg _ _ _ IH) as Hnn.
    destruct IH as [Hmax Hfirst].
    unfold best_step.
    destruct (Qlt_bool (snd best) (span_iou pred_span g)) eqn:E.
    + apply Qlt_bool_iff in E. split; cbn [fst snd].
      * intros i g' Hi. apply lookup_app_Some in Hi as [Hi|[_ Hi]].
        -- apply Qlt_le_weak. eapply Qle_lt_trans; [exact (Hmax i g' Hi)|exact E].
        -- apply list_lookup_singleton_Some in Hi as [_ <-]. apply Qle_refl.
      * right. exists (length golds), g. cbn [fst snd].
        split; [reflexivity|]. split; [apply list_lookup_middle; reflexivity|].
        split; [reflexivity|].
        split; [eapply Qle_lt_trans; [exact Hnn|exact E]|].
        intros j g' Hj Hg'. rewrite lookup_app_l in Hg' by exact Hj.
        eapply Qle_lt_trans; [exact (Hmax j g' Hg')|exact E].
    + apply Qlt_bool_false in E. split.
      * intros i g' Hi. apply lookup_app_Some in Hi as [Hi|[_ Hi]].
        -- exact (Hmax i g' Hi).
        -- apply list_lookup_singleton_Some in Hi as [_ <-]. exact E.
      * destruct Hfirst as [Hb|(i & g0 & Hi & Hg0 & Hq & Hpos & Hlt)];
          [left; exact Hb|right].
        exists i, g0. pose proof (lookup_lt_Some _ _ _ Hg0) as Hlen.
        split; [exact Hi|]. split; [rewrite lookup_app_l; assumption|].
        split; [exact Hq|]. split; [exact Hpos|].
        intros j g' Hj Hg'. rewrite lookup_app_l in Hg' by lia.
        exact (Hlt j g' Hj Hg').
Qed.

(** A result of [find_best_match] other than -1 is the position of a
    gold span, with its IoU, which reaches the threshold. *)
Lemma find_best_match_found (pred_span : Span) (golds : list Span)
    (iou_threshold : Q) :
  fst (find_best_match pred_span golds iou_threshold) <> -1 ->
  exists (i : nat) (g : Span),
    find_best_match pred_span golds iou_threshold
    = (Z.of_nat i, span_iou pred_span g)
    /\ golds !! i = Some g
    /\ (iou_threshold <= span_iou pred_span g)%Q.
Proof.
  unfold find_best_match.
  pose proof (best_scan_tracked pred_span golds) as [_ Hfirst].
  destruct (best_scan pred_span (enumerate golds) (-1, 0%Q)) as [bi bq].
  cbn [fst snd] in Hfirst.
  destruct (Qge_bool bq iou_threshold) eqn:E; cbn; [|congruence].
  apply Qge_bool_iff in E. intros Hne.
  destruct Hfirst as [Hb|(i & g & Hi & Hg & Hq & _)]; [congruence|].
  exists i, g. subst bi bq. repeat split; assumption.
Qed.

Lemma index_of_nat {A : Type} (l : list A) (i : nat) :
  index l (Z.of_nat i) = l !! i.
Proof.
  unfold index. destruct (Z.ltb_spec (Z.of_nat i) 0) as [?|_]; [lia|].
  rewrite Nat2Z.id. reflexivity.
Qed.

(** The inner loop stops at an index of the gold list that is not yet
    matched. *)
Lemma first_exact_fresh (pred : Span) (matched : gset Z) (golds : list Span)
    (k i : Z) :
  first_exact pred matched (enumerate_from k golds) = Some i ->
  (i ∉ matched) /\ (k <= i < k + len golds).
Proof.
  revert k. induction golds as [|g golds IH]; intros k; cbn; [discriminate|].
  assert (Hlen : len (g :: golds) = 1 + len golds) by (unfold len; cbn; lia).
  rewrite Hlen. pose proof (len_nonneg golds).
  case_bool_decide as Hin.
  - intros H'. apply IH in H' as [? ?]. split; [assumption|lia].
  - destruct (same_span pred g).
    + intros [= <-]. split; [assumption|lia].
    + intros H'. apply IH in H' as [? ?]. split; [assumption|lia].
Qed.

Lemma size_add_fresh (X : gset Z) (i : Z) :
  i ∉ X -> Z.of_nat (size (X ∪ {[i]})) = Z.of_nat (size X) + 1.
Proof.
  intros H. rewrite size_union by set_solver. rewrite size_singleton. lia.
Qed.

(** A set of indices of a list has no more elements than the list. *)
Lemma size_indices (X : gset Z) (n : nat) :
  (forall i : Z, i ∈ X -> 0 <= i < Z.of_nat n) -> (size X <= n)%nat.
Proof.
  intros H.
  assert (Hsub : X ⊆ list_to_set (Z.of_nat <$> seq 0 n)).
  { intros i Hi. apply elem_of_list_to_set, list_elem_of_fmap.
    exists (Z.to_nat i). specialize (H i Hi).
    split; [lia|]. apply elem_of_seq. lia. }
  apply subseteq_size in Hsub.
  rewrite size_list_to_set in Hsub.
  - rewrite length_fmap, length_seq in Hsub. exact Hsub.
  - apply NoDup_fmap; [intros x y; lia|apply NoDup_seq].
Qed.

(** One prediction: the body of the loop does not raise and keeps the
    loop variables consistent. *)
Lemma match_prediction_ok (golds : list Span) (exact_match_only : bool)
    (iou_threshold : Q) (n : Z) (m : Matching) (pred : Span) :
  matching_ok golds n m ->
  exists m' : Matching,
    match_prediction golds exact_match_only iou_threshold m pred = Some m'
    /\ matching_ok golds (n + 1) m'.
Proof.
  intros (He & Hp & Hsize & Hn & Hrange). unfold match_prediction.
  destruct (first_exact pred (matched_gold m) (enumerate golds)) as [i|] eqn:Ef.
  - apply first_exact_fresh in Ef as [Hfresh Hi].
    rewrite bool_decide_eq_true_2 by (eexists; reflexivity). cbn [negb andb].
    eexists. split; [reflexivity|]. unfold matching_ok. cbn.
    rewrite size_add_fresh by exact Hfresh.
    split; [lia|]. split; [lia|]. split; [lia|]. split; [lia|].
    intros j Hj. apply elem_of_union in Hj as [Hj|Hj];
      [apply Hrange in Hj|apply elem_of_singleton in Hj; subst j]; lia.
  - rewrite bool_decide_eq_false_2 by (intros [? ?]; discriminate).
    cbn [negb andb].
    assert (Same : matching_ok golds (n + 1) m).
    { unfold matching_ok. split; [lia|]. split; [lia|]. split; [lia|].
      split; [lia|exact Hrange]. }
    destruct exact_match_only; cbn [negb]; [eexists; split; [reflexivity|exact Same]|].
    destruct (find_best_match pred golds iou_threshold) as [bi bq] eqn:Eb.
    destruct (Z.eqb_spec bi (-1)) as [->|Hne]; cbn [negb andb];
      [eexists; split; [reflexivity|exact Same]|].
    case_bool_decide as Hin; cbn [negb];
      [eexists; split; [reflexivity|exact Same]|].
    destruct (find_best_match_found pred golds iou_threshold)
      as (i & g & Hr & Hg & _); [rewrite Eb; exact Hne|].
    rewrite Eb in Hr. injection Hr as -> ->.
    rewrite index_of_nat, Hg.
    eexists. split; [reflexivity|]. unfold matching_ok. cbn.
    rewrite size_add_fresh by exact Hin.
    apply lookup_lt_Some in Hg. unfold len.
    split; [lia|]. split; [lia|]. split; [lia|]. split; [lia|].
    intros j Hj. apply elem_of_union in Hj as [Hj|Hj];
      [apply Hrange in Hj; unfold len in Hj|apply elem_of_singleton in Hj; subst j];
      lia.
Qed.

(** The whole loop. *)
Lemma match_all_ok (golds : list Span) (exact_match_only : bool)
    (iou_threshold : Q) (preds : list Span) (n : Z) (m : Matching) :
  matching_ok golds n m ->
  exists m' : Matching,
    match_all golds exact_match_only iou_threshold preds m = Some m'
    /\ matching_ok golds (n + len preds) m'.
Proof.
  revert n m. induction preds as [|pred preds IH]; intros n m Hok; cbn.
  - exists m. split; [reflexivity|].
    replace (n + len (@nil Span)) with n by (unfold len; cbn; lia).
    exact Hok.
  - destruct (match_prediction_ok golds exact_match_only iou_threshold
                n m pred Hok) as (m1 & -> & Hok1).
    destruct (IH (n + 1) m1 Hok1) as (m' & -> & Hok').
    exists m'. split; [reflexivity|].
    replace (n + len (pred :: preds)) with (n + 1 + len preds)
      by (unfold len; cbn; lia).
    exact Hok'.
Qed.

Lemma no_matching_ok (golds : list Span) : matching_ok golds 0 no_matching.
Proof.
  unfold matching_ok, no_matching. cbn. rewrite size_empty.
  split; [lia|]. split; [lia|]. split; [lia|]. split; [lia|].
  intros i Hi. set_solver.
Qed.

(** Rates. *)
Lemma ratio_unit (a b : Z) : 0 <= a <= b -> 0 < b -> unit_rate (ratio a b).
Proof.
  intros [Ha Hab] Hb. unfold unit_rate, ratio.
  assert (Hb' : (0 < inject_Z b)%Q) by (unfold Qlt; cbn; lia).
  assert (Ha' : (0 <= inject_Z a)%Q) by (unfold Qle; cbn; lia).
  assert (Hab' : (inject_Z a <= inject_Z b)%Q) by (unfold Qle; cbn; lia).
  split.
  - apply Qle_shift_div_l; [exact Hb'|]. rewrite Qmult_0_l. exact Ha'.
  - apply Qle_shift_div_r; [exact Hb'|]. rewrite Qmult_1_l. exact Hab'.
Qed.

Lemma zero_unit : unit_rate 0.
Proof. split; [apply Qle_refl|discriminate]. Qed.

Lemma f1_unit (p r : Q) :
  unit_rate p -> unit_rate r ->
  unit_rate (if Qlt_bool 0 (p + r) then 2 * (p * r) / (p + r) else 0)%Q.
Proof.
  intros [Hp0 Hp1] [Hr0 Hr1].
  destruct (Qlt_bool 0 (p + r)) eqn:E; [|apply zero_unit].
  apply Qlt_bool_iff in E. split.
  - apply Qle_shift_div_l; [exact E|]. rewrite Qmult_0_l. nra.
  - apply Qle_shift_div_r; [exact E|]. rewrite Qmult_1_l. nra.
Qed.

End EvaluationFacts.

Module EvaluationProperties.
Import Evaluation EvaluationFacts Scenario.

(** C5: [find_best_match] goes through the gold list in order and keeps
    the greatest IoU seen, replacing it only by a strictly greater one
    (it starts from IoU 0.0 at index -1), so what it has tracked at the
    end is the first gold span of greatest IoU, or the initial pair when
    no IoU is positive. It returns the tracked (index, IoU) when that
    IoU is at least [iou_threshold], and (-1, 0.0) otherwise; for every
    prediction, gold list and threshold. *)
Theorem find_best_match_first_max :
  forall (pred_span : Span) (gold_spans : list Span) (iou_threshold : Q),
    exists best : Z * Q,
      tracked pred_span gold_spans best
      /\ ((iou_threshold <= snd best)%Q ->
          find_best_match pred_span gold_spans iou_threshold = best)
      /\ (~ (iou_threshold <= snd best)%Q ->
          find_best_match pred_span gold_spans iou_threshold = (-1, 0%Q)).
Proof.
  intros pred_span gold_spans iou_threshold.
  exists (best_scan pred_span (enumerate gold_spans) (-1, 0%Q)).
  split; [apply best_scan_tracked|].
  unfold find_best_match.
  destruct (best_scan pred_span (enumerate gold_spans) (-1, 0%Q)) as [bi bq].
  cbn [snd]. destruct (Qge_bool bq iou_threshold) eqn:E.
  - apply Qge_bool_iff in E. split; [reflexivity|]. intros H. contradiction.
  - split; [|reflexivity]. intros H. apply Qge_bool_iff in H. congruence.
Qed.

(** C1 (as stated, refuted): gold spans A = [0, 10) and B = [0, 8), and
    predictions A and then C = [0, 9), with threshold 0.5. A is matched
    exactly and consumes index 0. C has no exact match; gold index 1 is
    still unconsumed and its IoU with C, 8/9, reaches the threshold; but
    the best match over the full list is index 0 (IoU 9/10), which is
    consumed, so C is not counted as a partial match. *)
Lemma consumed_best_blocks_partial :
  match_all gold_AB false (1 # 2) [pred_A] no_matching = Some A_matched
  /\ first_exact pred_C (matched_gold A_matched) (enumerate gold_AB) = None
  /\ gold_AB !! 1%nat = Some (span "B" 0 8)
  /\ bool_decide (1 ∈ matched_gold A_matched) = false
  /\ (1 # 2 <= span_iou pred_C (span "B" 0 8))%Q
  /\ find_best_match pred_C gold_AB (1 # 2) = (0, (9 # 10)%Q)
  /\ match_prediction gold_AB false (1 # 2) A_matched pred_C = Some A_matched
  /\ exists m : Metrics,
      evaluate_spans [pred_A; pred_C] gold_AB false (1 # 2) = Some m
      /\ exact_matches m = 1
      /\ partial_matches m = 0
      /\ false_positives m = 1
      /\ boundary_errors m = [].
Proof.
  split; [vm_compute; reflexivity|].
  split; [vm_compute; reflexivity|].
  split; [reflexivity|].
  split; [vm_compute; reflexivity|].
  split; [vm_compute; discriminate|].
  split; [vm_compute; reflexivity|].
  split; [vm_compute; reflexivity|].
  eexists. split; [vm_compute; reflexivity|].
  repeat split.
Qed.

(** C1 (amended): for a prediction without an exact match among the
    unconsumed gold spans (and [exact_match_only] false), the search runs
    over the full gold list, consumed spans included. The prediction is
    counted as a partial match, consuming the index found and recording
    the boundary error (predicted, gold, distance, iou), exactly when
    [find_best_match] finds an index and that index is unconsumed; when
    it finds none, or the one it finds is consumed, the loop variables
    are left as they were. *)
Theorem partial_match_rule :
  forall (gold_standard : list Span) (iou_threshold : Q) (m : Matching)
         (pred : Span),
    first_exact pred (matched_gold m) (enumerate gold_standard) = None ->
    let best_idx := fst (find_best_match pred gold_standard iou_threshold) in
    let iou := snd (find_best_match pred gold_standard iou_threshold) in
    (best_idx <> -1 -> best_idx ∉ matched_gold m ->
       exists gold : Span,
         index gold_standard best_idx = Some gold
         /\ 0 <= best_idx < len gold_standard
         /\ iou = span_iou pred gold
         /\ (iou_threshold <= iou)%Q
         /\ match_prediction gold_standard false iou_threshold m pred
            = Some {| matched_gold := matched_gold m ∪ {[best_idx]};
                      m_exact_matches := m_exact_matches m;
                      m_partial_matches := m_partial_matches m + 1;
                      m_boundary_errors :=
                        m_boundary_errors m
                        ++ [{| predicted := pred; gold := gold;
                               distance := boundary_distance pred gold;
                               iou := iou |}] |})
    /\ (best_idx = -1 \/ best_idx ∈ matched_gold m ->
        match_prediction gold_standard false iou_threshold m pred = Some m).
Proof.
  intros gold_standard iou_threshold m pred Hnone best_idx iou.
  unfold match_prediction. rewrite Hnone.
  rewrite bool_decide_eq_false_2 by (intros [? ?]; discriminate).
  cbn [negb andb]. subst best_idx iou. split.
  - intros Hne Hfresh.
    destruct (find_best_match_found pred gold_standard iou_threshold Hne)
      as (i & g & Hr & Hg & Hthr).
    rewrite Hr in Hne, Hfresh |- *. cbn [fst snd] in *.
    exists g. rewrite index_of_nat, Hg.
    split; [reflexivity|]. pose proof (lookup_lt_Some _ _ _ Hg) as Hlt.
    split; [unfold len; lia|]. split; [reflexivity|]. split; [exact Hthr|].
    destruct (Z.eqb_spec (Z.of_nat i) (-1)) as [?|_]; [lia|].
    rewrite bool_decide_eq_false_2 by exact Hfresh. reflexivity.
  - intros Hno.
    destruct (find_best_match pred gold_standard iou_threshold) as [bi bq].
    cbn [fst] in Hno.
    destruct (Z.eqb_spec bi (-1)) as [_|Hne]; [reflexivity|].
    destruct Hno as [?|Hin]; [contradiction|].
    rewrite bool_decide_eq_true_2 by exact Hin. reflexivity.
Qed.

(** With nothing consumed yet, C = [0, 9) is a partial match of
    A = [0, 10), at IoU 9/10. *)
Lemma partial_match_rule_witness :
  exists gold : Span,
    index gold_AB 0 = Some gold
    /\ 0 <= 0 < len gold_AB
    /\ (9 # 10)%Q = span_iou pred_C gold
    /\ (1 # 2 <= 9 # 10)%Q
    /\ match_prediction gold_AB false (1 # 2) no_matching pred_C
       = Some {| matched_gold := matched_gold no_matching ∪ {[0]};
                 m_exact_matches := m_exact_matches no_matching;
                 m_partial_matches := m_partial_matches no_matching + 1;
                 m_boundary_errors :=
                   m_boundary_errors no_matching
                   ++ [{| predicted := pred_C; gold := gold;
                          distance := boundary_distance pred_C gold;
                          iou := (9 # 10)%Q |}] |}.
Proof.
  refine (proj1 (partial_match_rule gold_AB (1 # 2) no_matching pred_C eq_refl)
            _ _).
  - vm_compute. discriminate.
  - vm_compute. set_solver.
Defined.

(** C7: with an empty gold list [evaluate_spans] returns (it does not
    raise) a record in which every prediction is a false positive, the
    other counts are 0, every rate is 0 and there is no boundary error;
    with a single prediction, [false_positives] is 1. *)
Theorem empty_gold_all_false_positives :
  forall (predictions : list Span) (exact_match_only : bool)
         (iou_threshold : Q),
    (exists m : Metrics,
        evaluate_spans predictions [] exact_match_only iou_threshold = Some m
        /\ false_positives m = len predictions
        /\ exact_matches m = 0
        /\ partial_matches m = 0
        /\ false_negatives m = 0
        /\ precision m = 0%Q
        /\ recall m = 0%Q
        /\ f1 m = 0%Q
        /\ accuracy_exact m = 0%Q
        /\ accuracy_partial m = 0%Q
        /\ boundary_errors m = [])
    /\ forall p1 : Span,
        exists m : Metrics,
          evaluate_spans [p1] [] exact_match_only iou_threshold = Some m
          /\ false_positives m = 1
          /\ precision m = 0%Q
          /\ recall m = 0%Q
          /\ f1 m = 0%Q.
Proof.
  intros predictions exact_match_only iou_threshold. split.
  - eexists. split; [reflexivity|]. cbn. repeat split.
  - intros p1. eexists. split; [reflexivity|]. cbn. repeat split.
Qed.

(** C10: with a non-empty gold list [evaluate_spans] returns a record
    whose counts satisfy: true positives = exact + partial matches; true
    positives + false positives = number of predictions; true positives
    + false negatives = number of gold spans; true positives at most the
    number of gold spans; so no count is negative, and precision, recall,
    f1, accuracy_exact and accuracy_partial lie between 0 and 1. *)
Theorem count_identities :
  forall (predictions gold_standard : list Span) (exact_match_only : bool)
         (iou_threshold : Q),
    gold_standard <> [] ->
    exists (m : Metrics) (tp : Z),
      evaluate_spans predictions gold_standard exact_match_only iou_threshold
      = Some m
      /\ true_positives m = Some tp
      /\ tp = exact_matches m + partial_matches m
      /\ tp + false_positives m = len predictions
      /\ tp + false_negatives m = len gold_standard
      /\ tp <= len gold_standard
      /\ 0 <= exact_matches m
      /\ 0 <= partial_matches m
      /\ 0 <= false_positives m
      /\ 0 <= false_negatives m
      /\ unit_rate (precision m)
      /\ unit_rate (recall m)
      /\ unit_rate (f1 m)
      /\ unit_rate (accuracy_exact m)
      /\ unit_rate (accuracy_partial m).
Proof.
  intros predictions gold_standard exact_match_only iou_threshold Hne.
  destruct gold_standard as [|g0 golds]; [congruence|].
  set (gold_standard := g0 :: golds) in *.
  destruct (match_all_ok gold_standard exact_match_only iou_threshold
              predictions 0 no_matching (no_matching_ok gold_standard))
    as (m & Hm & He & Hp & Hsize & Hn & Hrange).
  assert (Hbound : Z.of_nat (size (matched_gold m)) <= len gold_standard).
  { unfold len. apply inj_le, size_indices. exact Hrange. }
  assert (Hpos : 0 < len gold_standard) by (unfold len; cbn; lia).
  unfold evaluate_spans. change gold_standard with (g0 :: golds) at 1.
  cbn iota. fold gold_standard. rewrite Hm.
  exists (summarize predictions gold_standard m),
         (m_exact_matches m + m_partial_matches m).
  split; [reflexivity|]. split; [reflexivity|]. split; [reflexivity|].
  assert (Hprec : unit_rate (precision (summarize predictions gold_standard m))).
  { cbn. destruct (Z.gtb_spec
      (m_exact_matches m + m_partial_matches m
       + (len predictions - (m_exact_matches m + m_partial_matches m))) 0);
      [apply ratio_unit; lia|apply zero_unit]. }
  assert (Hrec : unit_rate (recall (summarize predictions gold_standard m))).
  { cbn. destruct (Z.gtb_spec
      (m_exact_matches m + m_partial_matches m
       + (len gold_standard - Z.of_nat (size (matched_gold m)))) 0);
      [apply ratio_unit; lia|apply zero_unit]. }
  cbn [summarize exact_matches partial_matches false_positives
       false_negatives accuracy_exact accuracy_partial].
  split; [lia|]. split; [lia|]. split; [lia|]. split; [lia|].
  split; [lia|]. split; [lia|]. split; [lia|].
  split; [exact Hprec|]. split; [exact Hrec|].
  split; [apply f1_unit; [exact Hprec|exact Hrec]|].
  split; apply ratio_unit; lia.
Qed.

(** One prediction A against gold A and B. *)
Lemma count_identities_witness :
  exists (m : Metrics) (tp : Z),
    evaluate_spans pred_one gold_two false (1 # 2) = Some m
    /\ true_positives m = Some tp
    /\ tp = exact_matches m + partial_matches m
    /\ tp + false_positives m = len pred_one
    /\ tp + false_negatives m = len gold_two
    /\ tp <= len gold_two
    /\ 0 <= exact_matches m
    /\ 0 <= partial_matches m
    /\ 0 <= false_positives m
    /\ 0 <= false_negatives m
    /\ unit_rate (precision m)
    /\ unit_rate (recall m)
    /\ unit_rate (f1 m)
    /\ unit_rate (accuracy_exact m)
    /\ unit_rate (accuracy_partial m).
Proof.
  apply (count_identities pred_one gold_two false (1 # 2)).
  discriminate.
Defined.

End EvaluationProperties.

(** * Further properties *)

(** ** The example buffer *)

Module BufferExtras.
Import Buffer BufferFacts BufferProperties Scenario.

Lemma len_slice_from {A : Type} (l : list A) (i : Z) :
  0 <= i <= len l -> len (slice_from l i) = len l - i.
Proof.
  intros Hi. unfold slice_from.
  destruct (Z.ltb_spec i 0) as [?|_]; [lia|].
  unfold len in *. rewrite length_drop. lia.
Qed.

(** The buffer after a call that is neither [mark_learned] nor
    [clear]: the examples the call appends are added at the end. *)
Lemma after_appended (c : Call) (b : ExampleBuffer) :
  c <> MarkLearned -> c <> Clear ->
  after c b = {| examples := examples b ++ appended c;
                 last_learn_index := last_learn_index b |}.
Proof.
  intros Hm Hc. destruct c; try congruence; cbn;
    rewrite ?app_nil_r; destruct b; reflexivity.
Qed.

Lemma appended_ok (c : Call) : Forall example_ok (appended c).
Proof.
  destruct c; cbn; try apply List.Forall_nil; apply List.Forall_cons;
    try apply List.Forall_nil.
  - left. split; reflexivity.
  - right. left. split; reflexivity.
  - right. right. split; [reflexivity|]. split; [reflexivity|].
    eexists. eexists. reflexivity.
Qed.

Lemma examples_ok_run (cs : list Call) :
  Forall example_ok (examples (run cs init)).
Proof.
  induction cs as [|c cs IH] using rev_ind; [constructor|].
  rewrite run_snoc.
  destruct (after_shape c (run cs init))
    as [(e & Ha & _)|[(-> & ->)|[(-> & ->)|(_ & Hm & Hc & ->)]]].
  - rewrite after_appended by (intros ->; discriminate).
    cbn. apply Forall_app. split; [exact IH|apply appended_ok].
  - exact IH.
  - constructor.
  - exact IH.
Qed.

(** Among examples the add methods made, the three counts of
    [get_stats] partition the list. *)
Lemma counts_partition (l : list ObservedExample) :
  Forall example_ok l ->
  len l
  = len (List.filter (fun e => String.eqb (source e) "llm") l)
    + len (List.filter
             (fun e => String.eqb (source e) "human" && negb (is_correction e))
             l)
    + len (List.filter is_correction l).
Proof.
  induction 1 as [|e l He _ IH]; [reflexivity|].
  assert (Hcons : forall (A : Type) (x : A) (k : list A),
             len (x :: k) = 1 + len k) by (intros; unfold len; cbn; lia).
  cbn. rewrite Hcons, IH.
  destruct He as [[-> ->]|[[-> ->]|(-> & -> & _)]]; cbn; rewrite ?Hcons; lia.
Qed.

(** X1: in every state of a buffer, the new examples are partitioned
    into LLM observations, human examples and corrections. *)
Theorem stats_partition :
  forall cs : list Call,
    let s := fst (get_stats (run cs init)) in
    new_examples s = llm_observations s + human_examples s + new_corrections s.
Proof.
  intros cs s. subst s. cbn.
  apply counts_partition, Forall_slice_from, examples_ok_run.
Qed.

(** X2: in every state of a buffer, the cursor splits the total:
    total_examples = last_learn_index + new_examples, and
    0 <= new_corrections <= new_examples <= total_examples. *)
Theorem cursor_splits_total :
  forall cs : list Call,
    let b := run cs init in
    let s := fst (get_stats b) in
    total_examples s = last_learn_index b + new_examples s
    /\ 0 <= new_corrections s
    /\ new_corrections s <= new_examples s
    /\ new_examples s <= total_examples s.
Proof.
  intros cs b s. subst s. cbn.
  pose proof (cursor_ok_run cs) as Hok. fold b in Hok. unfold cursor_ok in Hok.
  rewrite len_slice_from by exact Hok.
  pose proof (len_nonneg
                (List.filter is_correction
                   (slice_from (examples b) (last_learn_index b)))) as H0.
  assert (H1 : len (List.filter is_correction
                      (slice_from (examples b) (last_learn_index b)))
               <= len (slice_from (examples b) (last_learn_index b))).
  { unfold len. apply inj_le, List.filter_length_le. }
  rewrite len_slice_from in H1 by exact Hok. lia.
Qed.

Lemma run_appended (news : list Call) (b : ExampleBuffer) :
  Forall (fun c => c <> MarkLearned /\ c <> Clear) news ->
  run news b = {| examples := examples b ++ flat_map appended news;
                  last_learn_index := last_learn_index b |}.
Proof.
  induction news as [|c news IH] using rev_ind; intros Hn.
  - cbn. rewrite app_nil_r. destruct b; reflexivity.
  - apply Forall_app in Hn as [Hnews Hc].
    apply Forall_inv in Hc as [Hm Hcl].
    rewrite run_snoc, IH by exact Hnews.
    rewrite after_appended by assumption. cbn.
    rewrite flat_map_app. cbn. rewrite app_nil_r, app_assoc. reflexivity.
Qed.

(** X3: after [mark_learned], whatever came before, [get_new_examples]
    returns exactly the examples appended since, in the order of the
    calls, as long as no [mark_learned] or [clear] intervenes (queries
    may); and [get_all_examples] ends with them. *)
Theorem new_examples_since_mark :
  forall prior news : list Call,
    Forall (fun c => c <> MarkLearned /\ c <> Clear) news ->
    let b := run (prior ++ [MarkLearned] ++ news) init in
    fst (get_new_examples b) = flat_map appended news
    /\ fst (get_all_examples b)
       = examples (run prior init) ++ flat_map appended news.
Proof.
  intros prior news Hn b. subst b. rewrite !run_app.
  rewrite (run_appended news) by exact Hn. cbn.
  split; [|reflexivity].
  rewrite slice_from_app
    by (pose proof (len_nonneg (examples (run prior init))); lia).
  rewrite slice_from_len. reflexivity.
Qed.

(** After two learned observations: a correction, a query and a human
    example. *)
Lemma new_examples_since_mark_witness :
  let news := [AddHumanCorrection [] [] [] 0; GetStats;
               AddHumanExample [] [] 0] in
  let b := run (observations 2 ++ [MarkLearned] ++ news) init in
  fst (get_new_examples b) = flat_map appended news
  /\ fst (get_all_examples b)
     = examples (run (observations 2) init) ++ flat_map appended news.
Proof.
  apply (new_examples_since_mark (observations 2)).
  repeat constructor; discriminate.
Defined.

(** X4: in every state of a buffer, [get_new_corrections] returns as
    many examples as [get_stats] counts new corrections, each of them
    a human-sourced correction whose output holds exactly the expected
    and the actual result. *)
Theorem new_corrections_are_corrections :
  forall cs : list Call,
    let b := run cs init in
    let found := fst (get_new_corrections b) in
    len found = new_corrections (fst (get_stats b))
    /\ Forall (fun e =>
                 is_correction e = true
                 /\ source e = "human"
                 /\ exists expected actual : Dict,
                     output e = [("expected", PyDict expected);
                                 ("actual", PyDict actual)])
         found.
Proof.
  intros cs b found. subst found. cbn. split; [reflexivity|].
  pose proof (Forall_slice_from _ _ (last_learn_index b) (examples_ok_run cs))
    as Hok. fold b in Hok.
  induction Hok as [|e l He _ IH]; cbn; [constructor|].
  destruct (is_correction e) eqn:Ec; [|exact IH].
  constructor; [|exact IH].
  destruct He as [[_ Hc]|[[_ Hc]|(Hs & _ & Ho)]]; try congruence.
  repeat split; assumption.
Qed.

(** X5: [clear] forgets the history: the calls made before it have no
    influence on the buffer that the later calls produce. *)
Theorem clear_forgets :
  forall cs ds : list Call,
    run (cs ++ [Clear] ++ ds) init = run ds init.
Proof. intros cs ds. rewrite !run_app. reflexivity. Qed.

(** X6: the list is append-only: a sequence of calls without [clear]
    keeps every example the buffer held, at its position, and can only
    add examples after them. *)
Theorem examples_append_only :
  forall (cs : list Call) (b : ExampleBuffer),
    Forall (fun c => c <> Clear) cs ->
    exists added : list ObservedExample,
      examples (run cs b) = examples b ++ added.
Proof.
  induction cs as [|c cs IH] using rev_ind; intros b Hn.
  - exists []. cbn. rewrite app_nil_r. reflexivity.
  - apply Forall_app in Hn as [Hcs Hc]. apply Forall_inv in Hc.
    destruct (IH b Hcs) as (added & Hadded). rewrite run_snoc.
    destruct (after_shape c (run cs b))
      as [(e & _ & -> & _)|[(_ & ->)|[(-> & _)|(_ & _ & _ & ->)]]];
      cbn; try congruence.
    + exists (added ++ [e]). rewrite Hadded, app_assoc. reflexivity.
    + exists added. exact Hadded.
    + exists added. exact Hadded.
Qed.

(** Two observations, a learn, and a correction, on a buffer of three
    observations. *)
Lemma examples_append_only_witness :
  exists added : list ObservedExample,
    examples (run (observations 2 ++ [MarkLearned] ++ corrections 1)
                (run (observations 3) init))
    = examples (run (observations 3) init) ++ added.
Proof.
  apply examples_append_only. repeat constructor; discriminate.
Defined.

End BufferExtras.

(** ** The heuristic coordinator *)

Module CoordinatorExtras.
Import Buffer BufferFacts Coordinator CoordinatorProperties Scenario.

(** The decision, read off the two counts. *)
Lemma decision_cases (Rule : Type) (self : SimpleCoordinator)
    (buffer : ExampleBuffer) (current_rules : option (list Rule)) :
  let d := decide_learning self buffer current_rules in
  let E := new_examples (fst (get_stats buffer)) in
  let C := new_corrections (fst (get_stats buffer)) in
  (current_rules = None
   /\ should_learn d = (E >=? trigger_threshold self)
   /\ strategy d = "balanced" /\ max_iterations d = 3)
  \/ (current_rules <> None /\ correction_threshold self <= C
      /\ should_learn d = true
      /\ strategy d = "corrections_first" /\ max_iterations d = 2)
  \/ (current_rules <> None /\ C < correction_threshold self
      /\ trigger_threshold self <= E
      /\ should_learn d = true
      /\ strategy d = "diversity" /\ max_iterations d = 3)
  \/ (current_rules <> None /\ C < correction_threshold self
      /\ E < trigger_threshold self
      /\ should_learn d = false
      /\ strategy d = "balanced" /\ max_iterations d = 3).
Proof.
  intros d E C. subst d. unfold decide_learning, should_trigger_learning.
  cbv zeta. fold E C. clearbody E C. destruct current_rules as [rules|].
  - right.
    destruct (Z.geb_spec C (correction_threshold self)) as [HC|HC].
    + left. rewrite orb_true_r. cbn.
      split; [discriminate|]. split; [lia|]. repeat split.
    + right. destruct (Z.geb_spec E (trigger_threshold self)) as [HE|HE].
      * left. cbn. split; [discriminate|]. split; [lia|]. split; [lia|].
        repeat split.
      * right. cbn. split; [discriminate|]. split; [lia|]. split; [lia|].
        repeat split.
  - left. cbn. repeat split.
Qed.

(** Whether to learn, as a formula of the two counts. *)
Lemma should_learn_value (Rule : Type) (self : SimpleCoordinator)
    (buffer : ExampleBuffer) (rules : list Rule) :
  let E := new_examples (fst (get_stats buffer)) in
  let C := new_corrections (fst (get_stats buffer)) in
  should_learn (decide_learning (Rule := Rule) self buffer None)
  = (E >=? trigger_threshold self)
  /\ should_learn (decide_learning self buffer (Some rules))
     = (E >=? trigger_threshold self) || (C >=? correction_threshold self).
Proof.
  intros E C. split.
  - destruct (decision_cases Rule self buffer None)
      as [(_ & Hl & _)|[(Hn & _)|[(Hn & _)|(Hn & _)]]];
      [exact Hl|contradiction..].
  - destruct (decision_cases Rule self buffer (Some rules))
      as [(Hn & _)|[(_ & HC' & Hl & _)|[(_ & HC' & HE' & Hl & _)
                                      |(_ & HC' & HE' & Hl & _)]]];
      [discriminate| | |]; rewrite Hl; symmetry.
    + apply orb_true_iff. right. apply Z.geb_le. exact HC'.
    + apply orb_true_iff. left. apply Z.geb_le. exact HE'.
    + apply orb_false_iff. split; rewrite Z.geb_leb; apply Z.leb_gt; assumption.
Qed.

(** X7: [analyze_buffer] is in lockstep with [should_trigger_learning]:
    its flag ready_for_first_learn is the decision taken without rules,
    its flag ready_for_refinement the decision taken with any rule set,
    and the stats it reports are those of the buffer. *)
Theorem analyze_buffer_lockstep :
  forall (Rule : Type) (self : SimpleCoordinator) (buffer : ExampleBuffer)
         (rules : list Rule),
    let a := analyze_buffer self buffer in
    ready_for_first_learn a
    = should_learn (decide_learning (Rule := Rule) self buffer None)
    /\ ready_for_refinement a
       = should_learn (decide_learning self buffer (Some rules))
    /\ analysis_stats a = fst (get_stats buffer).
Proof.
  intros Rule self buffer rules a. subst a.
  destruct (should_learn_value Rule self buffer rules) as [-> ->].
  repeat split.
Qed.

(** X8: with a rule set present and fewer new corrections than
    [correction_threshold], the decision is to learn exactly when the
    new examples reach [trigger_threshold]; then the strategy is
    diversity, otherwise balanced; the iterations are 3 either way. *)
Theorem refinement_without_corrections :
  forall (Rule : Type) (self : SimpleCoordinator) (buffer : ExampleBuffer)
         (rules : list Rule),
    new_corrections (fst (get_stats buffer)) < correction_threshold self ->
    let d := decide_learning self buffer (Some rules) in
    let E := new_examples (fst (get_stats buffer)) in
    (should_learn d = true <-> trigger_threshold self <= E)
    /\ (trigger_threshold self <= E -> strategy d = "diversity")
    /\ (E < trigger_threshold self -> strategy d = "balanced")
    /\ max_iterations d = 3.
Proof.
  intros Rule self buffer rules HC d E.
  destruct (decision_cases Rule self buffer (Some rules))
    as [(Hn & _)|[(_ & H & _)|[(_ & _ & HE & Hl & Hs & Hm)
                              |(_ & _ & HE & Hl & Hs & Hm)]]];
    [discriminate|lia| |]; fold d in Hl, Hs, Hm; fold E in HE;
    rewrite Hl, Hs, Hm.
  - repeat split; auto; intros; lia.
  - repeat split; auto; intros; try lia; discriminate.
Qed.

(** Thresholds 50 and 10 (the defaults), 3 new observations. *)
Lemma refinement_without_corrections_witness :
  let b := run (observations 3) init in
  let d := decide_learning (Rule := unit) default b (Some []) in
  (should_learn d = true <-> 50 <= new_examples (fst (get_stats b)))
  /\ (50 <= new_examples (fst (get_stats b)) -> strategy d = "diversity")
  /\ (new_examples (fst (get_stats b)) < 50 -> strategy d = "balanced")
  /\ max_iterations d = 3.
Proof.
  apply (refinement_without_corrections unit default
           (run (observations 3) init) []).
  reflexivity.
Defined.

(** X9: every decision has one of the strategies balanced, diversity
    and corrections_first, and 2 or 3 iterations, 2 exactly for
    corrections_first; with a rule set present the decision is to learn
    exactly when the strategy is not balanced. *)
Theorem decision_shape :
  forall (Rule : Type) (self : SimpleCoordinator) (buffer : ExampleBuffer)
         (current_rules : option (list Rule)),
    let d := decide_learning self buffer current_rules in
    (strategy d = "balanced" \/ strategy d = "diversity"
     \/ strategy d = "corrections_first")
    /\ (max_iterations d = 2 \/ max_iterations d = 3)
    /\ (max_iterations d = 2 <-> strategy d = "corrections_first")
    /\ (current_rules <> None ->
        (should_learn d = true <-> strategy d <> "balanced")).
Proof.
  intros Rule self buffer current_rules d.
  destruct (decision_cases Rule self buffer current_rules)
    as [(Hn & Hl & Hs & Hm)|[(Hn & _ & Hl & Hs & Hm)
       |[(Hn & _ & _ & Hl & Hs & Hm)|(Hn & _ & _ & Hl & Hs & Hm)]]];
    fold d in Hl, Hs, Hm; rewrite Hs, Hm;
    repeat split; intros; auto; try discriminate; congruence.
Qed.

(** X10: a buffer that triggers the first learn also triggers a
    refinement: if the decision without rules is to learn, so is the
    decision with any rule set. *)
Theorem first_learn_implies_refinement :
  forall (Rule : Type) (self : SimpleCoordinator) (buffer : ExampleBuffer)
         (rules : list Rule),
    should_learn (decide_learning (Rule := Rule) self buffer None) = true ->
    should_learn (decide_learning self buffer (Some rules)) = true.
Proof.
  intros Rule self buffer rules H.
  destruct (decision_cases Rule self buffer None)
    as [(_ & Hl & _)|[(Hn & _)|[(Hn & _)|(Hn & _)]]]; try congruence.
  rewrite Hl in H. apply Z.geb_le in H.
  destruct (decision_cases Rule self buffer (Some rules))
    as [(Hn & _)|[(_ & _ & Hl' & _)|[(_ & _ & _ & Hl' & _)
                                   |(_ & _ & HE & _)]]];
    [discriminate|exact Hl'|exact Hl'|lia].
Qed.

(** Threshold 2, three observations. *)
Lemma first_learn_implies_refinement_witness :
  should_learn (decide_learning (Rule := unit) (coordinator 2 10)
                  (run (observations 3) init) (Some [])) = true.
Proof.
  apply (first_learn_implies_refinement unit (coordinator 2 10)
           (run (observations 3) init) []).
  reflexivity.
Defined.

(** X11: raising the thresholds never makes the coordinator more eager:
    if a coordinator decides to learn, so does, on the same buffer and
    rules, any coordinator whose two thresholds are no higher. *)
Theorem thresholds_monotone :
  forall (Rule : Type) (low high : SimpleCoordinator) (buffer : ExampleBuffer)
         (current_rules : option (list Rule)),
    trigger_threshold low <= trigger_threshold high ->
    correction_threshold low <= correction_threshold high ->
    should_learn (decide_learning high buffer current_rules) = true ->
    should_learn (decide_learning low buffer current_rules) = true.
Proof.
  intros Rule low high buffer current_rules Ht Hc H.
  destruct (decision_cases Rule high buffer current_rules)
    as [(Hn & Hl & _)|[(Hn & HC & _)|[(Hn & _ & HE & _)|(_ & _ & _ & Hl & _)]]];
    [| | |congruence].
  - rewrite Hl in H. apply Z.geb_le in H.
    destruct (decision_cases Rule low buffer current_rules)
      as [(_ & Hl' & _)|[(Hn' & _)|[(Hn' & _)|(Hn' & _)]]]; try congruence.
    rewrite Hl'. apply Z.geb_le. lia.
  - destruct (decision_cases Rule low buffer current_rules)
      as [(Hn' & _)|[(_ & _ & Hl' & _)|[(_ & _ & _ & Hl' & _)
                                      |(_ & HC' & _)]]];
      [congruence|exact Hl'|exact Hl'|lia].
  - destruct (decision_cases Rule low buffer current_rules)
      as [(Hn' & _)|[(_ & _ & Hl' & _)|[(_ & _ & _ & Hl' & _)
                                      |(_ & _ & HE' & _)]]];
      [congruence|exact Hl'|exact Hl'|lia].
Qed.

(** Thresholds (2, 1) against (3, 2), three observations, no rules. *)
Lemma thresholds_monotone_witness :
  should_learn (decide_learning (Rule := unit) (coordinator 2 1)
                  (run (observations 3) init) None) = true.
Proof.
  apply (thresholds_monotone unit (coordinator 2 1) (coordinator 3 2)
           (run (observations 3) init) None).
  - cbn. lia.
  - cbn. lia.
  - reflexivity.
Defined.

(** X12: right after [mark_learned] a coordinator with positive
    thresholds does not trigger learning, with or without rules,
    whatever the buffer holds. *)
Theorem no_learning_after_mark :
  forall (Rule : Type) (self : SimpleCoordinator) (buffer : ExampleBuffer)
         (current_rules : option (list Rule)),
    0 < trigger_threshold self ->
    0 < correction_threshold self ->
    should_learn
      (decide_learning self (after MarkLearned buffer) current_rules)
    = false.
Proof.
  intros Rule self buffer current_rules Ht Hc.
  destruct (BufferProperties.mark_learned_no_new buffer) as [_ HE].
  assert (HC : new_corrections (fst (get_stats (after MarkLearned buffer))) = 0).
  { cbn. rewrite slice_from_len. reflexivity. }
  destruct (decision_cases Rule self (after MarkLearned buffer) current_rules)
    as [(_ & Hl & _)|[(_ & H & _)|[(_ & _ & H & _)|(_ & _ & _ & Hl & _)]]].
  - rewrite Hl, HE. rewrite Z.geb_leb. apply Z.leb_gt. exact Ht.
  - rewrite HC in H. lia.
  - rewrite HE in H. lia.
  - exact Hl.
Qed.

(** The default thresholds, after five learned observations. *)
Lemma no_learning_after_mark_witness :
  should_learn
    (decide_learning (Rule := unit) default
       (after MarkLearned (run (observations 5) init)) (Some []))
  = false.
Proof.
  apply (no_learning_after_mark unit default (run (observations 5) init)).
  - cbn. lia.
  - cbn. lia.
Defined.

(** X13: a trigger threshold of 0 or less makes the coordinator decide
    to learn on every buffer, even an empty one, with or without
    rules. *)
Theorem nonpositive_threshold_always_learns :
  forall (Rule : Type) (self : SimpleCoordinator) (buffer : ExampleBuffer)
         (current_rules : option (list Rule)),
    trigger_threshold self <= 0 ->
    should_learn (decide_learning self buffer current_rules) = true.
Proof.
  intros Rule self buffer current_rules Ht.
  assert (HE : 0 <= new_examples (fst (get_stats buffer)))
    by (cbn; apply len_nonneg).
  destruct (decision_cases Rule self buffer current_rules)
    as [(_ & Hl & _)|[(_ & _ & Hl & _)|[(_ & _ & _ & Hl & _)|(_ & _ & H & _)]]].
  - rewrite Hl. apply Z.geb_le. lia.
  - exact Hl.
  - exact Hl.
  - lia.
Qed.

(** Threshold 0 on a new buffer. *)
Lemma nonpositive_threshold_always_learns_witness :
  should_learn (decide_learning (Rule := unit) (coordinator 0 10) init None)
  = true.
Proof.
  apply (nonpositive_threshold_always_learns unit (coordinator 0 10) init None).
  cbn. lia.
Defined.

(** X14: after a [mark_learned] followed by add calls only, the
    decision counts those calls: without rules it is to learn exactly
    when their number reaches [trigger_threshold]; with rules, when it
    does or the number of [add_human_correction] calls among them
    reaches [correction_threshold]. *)
Theorem decision_counts_adds :
  forall (Rule : Type) (self : SimpleCoordinator) (prior news : list Call)
         (rules : list Rule),
    forallb is_add news = true ->
    let b := run (prior ++ [MarkLearned] ++ news) init in
    should_learn (decide_learning (Rule := Rule) self b None)
    = (len news >=? trigger_threshold self)
    /\ should_learn (decide_learning self b (Some rules))
       = (len news >=? trigger_threshold self)
         || (len (List.filter is_correction_call news)
             >=? correction_threshold self).
Proof.
  intros Rule self prior news rules Hadd b.
  destruct (stats_since_mark prior news Hadd) as [HE HC]. fold b in HE, HC.
  destruct (should_learn_value Rule self b rules) as [-> ->].
  rewrite HE, HC. split; reflexivity.
Qed.

(** Thresholds 5 and 2, three observations and two corrections since
    the last learn. *)
Lemma decision_counts_adds_witness :
  let news := observations 3 ++ corrections 2 in
  let b := run (observations 4 ++ [MarkLearned] ++ news) init in
  should_learn (decide_learning (Rule := unit) (coordinator 5 2) b None)
  = (len news >=? 5)
  /\ should_learn (decide_learning (Rule := unit) (coordinator 5 2) b
                     (Some []))
     = (len news >=? 5) || (len (List.filter is_correction_call news) >=? 2).
Proof.
  exact (decision_counts_adds unit (coordinator 5 2) (observations 4)
           (observations 3 ++ corrections 2) [] eq_refl).
Defined.

End CoordinatorExtras.

(** ** The span evaluator *)

Module EvaluationExtras.
Import Evaluation EvaluationFacts Scenario.

Lemma span_iou_unfold (a b : Span) :
  span_iou a b
  = if union a b =? 0 then 0%Q
    else (inject_Z (intersection a b) / inject_Z (union a b))%Q.
Proof. reflexivity. Qed.

(** Either the spans share no position and the IoU is 0, or they share
    some, both are non-empty, and the IoU is the quotient of a positive
    intersection by a union at least as large. *)
Lemma span_iou_cases (a b : Span) :
  (intersection a b = 0 /\ (span_iou a b == 0)%Q)
  \/ (0 < intersection a b <= union a b
      /\ span_iou a b = ratio (intersection a b) (union a b)
      /\ intersection a b <= get_end a - get_start a
      /\ intersection a b <= get_end b - get_start b).
Proof.
  rewrite span_iou_unfold.
  assert (Hi : intersection a b = 0 \/ 0 < intersection a b)
    by (unfold intersection; lia).
  destruct Hi as [Hi|Hi].
  - left. split; [exact Hi|]. destruct (union a b =? 0); [reflexivity|].
    rewrite Hi. unfold Qdiv. apply Qmult_0_l.
  - right.
    assert (Ha : intersection a b <= get_end a - get_start a)
      by (unfold intersection in *; lia).
    assert (Hb : intersection a b <= get_end b - get_start b)
      by (unfold intersection in *; lia).
    assert (Hu : intersection a b <= union a b) by (unfold union; lia).
    destruct (Z.eqb_spec (union a b) 0) as [?|_]; [lia|].
    repeat split; assumption.
Qed.

(** X15: [span_iou] is symmetric in its two spans. *)
Theorem span_iou_symmetric :
  forall a b : Span, span_iou a b = span_iou b a.
Proof.
  intros a b. rewrite !span_iou_unfold.
  assert (Hi : intersection a b = intersection b a)
    by (unfold intersection; lia).
  assert (Hu : union a b = union b a) by (unfold union; lia).
  rewrite Hi, Hu. reflexivity.
Qed.

Lemma span_iou_unit (a b : Span) : unit_rate (span_iou a b).
Proof.
  destruct (span_iou_cases a b) as [[_ H]|(Hi & -> & _)].
  - unfold unit_rate. rewrite H. split; [apply Qle_refl|discriminate].
  - apply ratio_unit; lia.
Qed.

(** X16: the IoU of any two spans, well-formed or not and whatever keys
    they have, lies between 0 and 1. *)
Theorem span_iou_bounds :
  forall a b : Span, (0 <= span_iou a b)%Q /\ (span_iou a b <= 1)%Q.
Proof. intros a b. apply span_iou_unit. Qed.

(** X17: the IoU is positive exactly when the two spans share a
    position, that is, when the greater start is below the smaller
    end; in particular an empty span has IoU 0 with every span. *)
Theorem span_iou_positive_iff :
  forall a b : Span,
    (0 < span_iou a b)%Q
    <-> Z.max (get_start a) (get_start b) < Z.min (get_end a) (get_end b).
Proof.
  intros a b. destruct (span_iou_cases a b) as [[Hi H]|(Hi & -> & _)].
  - rewrite H. split; intros Hlt.
    + exfalso. exact (Qlt_irrefl 0 Hlt).
    + unfold intersection in Hi. lia.
  - split; intros _.
    + unfold intersection in Hi. lia.
    + unfold ratio. apply Qlt_shift_div_l.
      * unfold Qlt; cbn; lia.
      * rewrite Qmult_0_l. unfold Qlt; cbn; lia.
Qed.


(** X19: [boundary_distance] is symmetric and never negative; it is
    half the sum of the two boundary offsets, rounded down, so it is 0
    exactly when the boundaries differ by at most one position in
    all. *)
Theorem boundary_distance_facts :
  forall p g : Span,
    let off := Z.abs (get_start p - get_start g)
               + Z.abs (get_end p - get_end g) in
    boundary_distance p g = boundary_distance g p
    /\ 0 <= boundary_distance p g
    /\ 2 * boundary_distance p g <= off <= 2 * boundary_distance p g + 1
    /\ (boundary_distance p g = 0 <-> off <= 1).
Proof.
  intros p g off. unfold boundary_distance. cbv zeta.
  assert (Hsym : Z.abs (get_start g - get_start p)
                 + Z.abs (get_end g - get_end p) = off)
    by (subst off; lia).
  rewrite Hsym. fold off.
  assert (H0 : 0 <= off) by (subst off; lia).
  clearbody off.
  pose proof (Z.div_mod off 2 ltac:(lia)) as Hd.
  pose proof (Z.mod_pos_bound off 2 ltac:(lia)) as Hm.
  repeat split; lia.
Qed.

(** X20: [find_best_match] returns index -1 exactly when no gold span
    has an IoU with the prediction that is both positive and at least
    the threshold. *)
Theorem find_best_match_none_iff :
  forall (pred_span : Span) (gold_spans : list Span) (iou_threshold : Q),
    fst (find_best_match pred_span gold_spans iou_threshold) = -1
    <-> ~ exists (i : nat) (g : Span),
          gold_spans !! i = Some g
          /\ (0 < span_iou pred_span g)%Q
          /\ (iou_threshold <= span_iou pred_span g)%Q.
Proof.
  intros pred_span gold_spans iou_threshold. unfold find_best_match.
  pose proof (best_scan_tracked pred_span gold_spans) as [Hmax Hfirst].
  destruct (best_scan pred_span (enumerate gold_spans) (-1, 0%Q))
    as [bi bq].
  cbn [fst snd] in Hmax, Hfirst.
  destruct (Qge_bool bq iou_threshold) eqn:E; cbn [fst].
  - apply Qge_bool_iff in E.
    destruct Hfirst as [[= -> ->]|(i & g & -> & Hg & -> & Hpos & _)].
    + split; [|reflexivity]. intros _ (i & g & Hg & Hpos & _).
      exact (Qlt_not_le _ _ Hpos (Hmax i g Hg)).
    + split; [lia|]. intros Hno. exfalso. apply Hno.
      exists i, g. repeat split; assumption.
  - split; [|reflexivity]. intros _ (i & g & Hg & _ & Hthr).
    assert (Hle : (iou_threshold <= bq)%Q)
      by (eapply Qle_trans; [exact Hthr|exact (Hmax i g Hg)]).
    apply Qge_bool_iff in Hle. congruence.
Qed.

(** *** The matching loop *)

Lemma same_span_refl (s : Span) : same_span s s = true.
Proof.
  unfold same_span. rewrite !bool_decide_eq_true_2 by reflexivity.
  reflexivity.
Qed.

(** When the inner loop finds nothing, no unmatched gold span is the
    same as the prediction. *)
Lemma first_exact_none (pred : Span) (matched : gset Z) (golds : list Span)
    (k : Z) :
  first_exact pred matched (enumerate_from k golds) = None ->
  forall (i : nat) (g : Span),
    golds !! i = Some g -> k + Z.of_nat i ∉ matched -> same_span pred g = false.
Proof.
  revert k. induction golds as [|g0 golds IH]; intros k Hnone i g Hg Hi.
  - destruct i; discriminate.
  - cbn in Hnone. destruct i as [|i]; cbn in Hg.
    + injection Hg as ->. replace (k + Z.of_nat 0) with k in Hi by lia.
      rewrite bool_decide_eq_false_2 in Hnone by exact Hi.
      destruct (same_span pred g); [discriminate|reflexivity].
    + apply (IH (k + 1)) with (i := i); [|exact Hg|].
      * case_bool_decide; [exact Hnone|].
        destruct (same_span pred g0); [discriminate|exact Hnone].
      * replace (k + 1 + Z.of_nat i) with (k + Z.of_nat (S i)) by lia.
        exact Hi.
Qed.

(** When every index before the [n]-th is matched and the [n]-th is
    not and holds the same span, the inner loop stops there. *)
Lemma first_exact_at (pred : Span) (matched : gset Z) (golds : list Span)
    (k : Z) (n : nat) (g : Span) :
  (forall j : Z, k <= j < k + Z.of_nat n -> j ∈ matched) ->
  k + Z.of_nat n ∉ matched ->
  golds !! n = Some g ->
  same_span pred g = true ->
  first_exact pred matched (enumerate_from k golds) = Some (k + Z.of_nat n).
Proof.
  revert k n. induction golds as [|g0 golds IH]; intros k n Hbefore Hn Hg Hs.
  - destruct n; discriminate.
  - cbn. destruct n as [|n]; cbn in Hg.
    + injection Hg as ->. replace (k + Z.of_nat 0) with k in * by lia.
      rewrite bool_decide_eq_false_2 by exact Hn. rewrite Hs. reflexivity.
    + rewrite bool_decide_eq_true_2 by (apply Hbefore; lia).
      replace (k + Z.of_nat (S n)) with (k + 1 + Z.of_nat n) in * by lia.
      apply IH; [|exact Hn|exact Hg|exact Hs].
      intros j Hj. apply Hbefore. lia.
Qed.

(** A result of [find_best_match] other than -1, in full. *)
Lemma find_best_match_positive (pred_span : Span) (golds : list Span)
    (iou_threshold : Q) :
  fst (find_best_match pred_span golds iou_threshold) <> -1 ->
  exists (i : nat) (g : Span),
    find_best_match pred_span golds iou_threshold
    = (Z.of_nat i, span_iou pred_span g)
    /\ golds !! i = Some g
    /\ (iou_threshold <= span_iou pred_span g)%Q
    /\ (0 < span_iou pred_span g)%Q.
Proof.
  unfold find_best_match.
  pose proof (best_scan_tracked pred_span golds) as [_ Hfirst].
  destruct (best_scan pred_span (enumerate golds) (-1, 0%Q)) as [bi bq].
  cbn [fst snd] in Hfirst.
  destruct (Qge_bool bq iou_threshold) eqn:E; cbn; [|congruence].
  apply Qge_bool_iff in E. intros Hne.
  destruct Hfirst as [Hb|(i & g & Hi & Hg & Hq & Hpos & _)]; [congruence|].
  exists i, g. subst bi bq. repeat split; assumption.
Qed.

(** No IoU reaches a threshold above 1. *)
Lemma find_best_match_high (pred_span : Span) (golds : list Span)
    (iou_threshold : Q) :
  (1 < iou_threshold)%Q ->
  fst (find_best_match pred_span golds iou_threshold) = -1.
Proof.
  intros Hthr.
  destruct (Z.eq_dec (fst (find_best_match pred_span golds iou_threshold))
              (-1)) as [H|H]; [exact H|exfalso].
  destruct (find_best_match_positive _ _ _ H) as (i & g & _ & _ & Hle & _).
  destruct (span_iou_unit pred_span g) as [_ H1].
  apply (Qlt_not_le _ _ Hthr). eapply Qle_trans; [exact Hle|exact H1].
Qed.

(** The body of the loop when only exact matches count. *)
Lemma match_prediction_exact_only (golds : list Span) (iou_threshold : Q)
    (m : Matching) (pred : Span) :
  match_prediction golds true iou_threshold m pred
  = Some match first_exact pred (matched_gold m) (enumerate golds) with
         | Some gold_idx =>
             {| matched_gold := matched_gold m ∪ {[gold_idx]};
                m_exact_matches := m_exact_matches m + 1;
                m_partial_matches := m_partial_matches m;
                m_boundary_errors := m_boundary_errors m |}
         | None => m
         end.
Proof.
  unfold match_prediction. rewrite andb_false_r. reflexivity.
Qed.

Lemma match_all_exact_only (golds : list Span) (thr thr' : Q)
    (preds : list Span) (m : Matching) :
  match_all golds true thr preds m = match_all golds true thr' preds m.
Proof.
  revert m. induction preds as [|pred preds IH]; intros m; cbn;
    [reflexivity|].
  rewrite !match_prediction_exact_only. apply IH.
Qed.

Lemma match_all_exact_only_errors (golds : list Span) (thr : Q)
    (preds : list Span) (m m' : Matching) :
  match_all golds true thr preds m = Some m' ->
  m_partial_matches m' = m_partial_matches m
  /\ m_boundary_errors m' = m_boundary_errors m.
Proof.
  revert m. induction preds as [|pred preds IH]; intros m; cbn.
  - intros [= <-]. split; reflexivity.
  - rewrite match_prediction_exact_only. intros H. apply IH in H as [-> ->].
    destruct (first_exact pred (matched_gold m) (enumerate golds));
      split; reflexivity.
Qed.

Lemma match_all_high (golds : list Span) (thr : Q) (preds : list Span)
    (m : Matching) :
  (1 < thr)%Q ->
  match_all golds false thr preds m = match_all golds true thr preds m.
Proof.
  intros Hthr. revert m. induction preds as [|pred preds IH]; intros m; cbn;
    [reflexivity|].
  assert (Hsame : match_prediction golds false thr m pred
                  = match_prediction golds true thr m pred).
  { rewrite match_prediction_exact_only. unfold match_prediction.
    pose proof (find_best_match_high pred golds thr Hthr) as Hb.
    destruct (find_best_match pred golds thr) as [bi bq]. cbn in Hb. subst bi.
    destruct (first_exact pred (matched_gold m) (enumerate golds));
      cbn; reflexivity. }
  rewrite Hsame. destruct (match_prediction golds true thr m pred);
    [apply IH|reflexivity].
Qed.

(** X21: when only exact matches count, the threshold plays no part,
    no prediction is a partial match and no boundary error is
    recorded. *)
Theorem exact_only_ignores_threshold :
  forall (predictions gold_standard : list Span) (thr thr' : Q),
    evaluate_spans predictions gold_standard true thr
    = evaluate_spans predictions gold_standard true thr'
    /\ forall m : Metrics,
        evaluate_spans predictions gold_standard true thr = Some m ->
        partial_matches m = 0 /\ boundary_errors m = [].
Proof.
  intros predictions gold_standard thr thr'. split.
  - unfold evaluate_spans. destruct gold_standard; [reflexivity|].
    rewrite (match_all_exact_only _ thr thr'). reflexivity.
  - intros m. unfold evaluate_spans. destruct gold_standard as [|g golds].
    + intros [= <-]. split; reflexivity.
    + destruct (match_all (g :: golds) true thr predictions no_matching)
        as [m'|] eqn:E; [|discriminate].
      intros [= <-]. apply match_all_exact_only_errors in E as [Hp He].
      cbn. rewrite Hp, He. split; reflexivity.
Qed.

(** X22: with a threshold above 1 no partial match is possible: the
    result is the one obtained when only exact matches count. *)
Theorem threshold_above_one_is_exact_only :
  forall (predictions gold_standard : list Span) (thr : Q),
    (1 < thr)%Q ->
    evaluate_spans predictions gold_standard false thr
    = evaluate_spans predictions gold_standard true thr.
Proof.
  intros predictions gold_standard thr Hthr. unfold evaluate_spans.
  destruct gold_standard; [reflexivity|].
  rewrite (match_all_high _ thr predictions no_matching Hthr). reflexivity.
Qed.

(** Threshold 2 on the predictions A and C against gold A and B. *)
Lemma threshold_above_one_is_exact_only_witness :
  evaluate_spans [pred_A; pred_C] gold_AB false 2
  = evaluate_spans [pred_A; pred_C] gold_AB true 2.
Proof.
  apply (threshold_above_one_is_exact_only [pred_A; pred_C] gold_AB 2).
  reflexivity.
Defined.

(** *** Boundary errors *)

Lemma match_prediction_errors (preds golds : list Span)
    (exact_match_only : bool) (thr : Q) (m m' : Matching) (pred : Span) :
  errors_ok preds golds thr m ->
  pred ∈ preds ->
  match_prediction golds exact_match_only thr m pred = Some m' ->
  errors_ok preds golds thr m'.
Proof.
  intros [Hlen Hall] Hin. unfold match_prediction.
  destruct (first_exact pred (matched_gold m) (enumerate golds))
    as [i|] eqn:Ef.
  - rewrite bool_decide_eq_true_2 by (eexists; reflexivity). cbn [negb andb].
    intros [= <-]. split; assumption.
  - rewrite bool_decide_eq_false_2 by (intros [? ?]; discriminate).
    cbn [negb andb].
    destruct exact_match_only; cbn [negb];
      [intros [= <-]; split; assumption|].
    destruct (find_best_match pred golds thr) as [bi bq] eqn:Eb.
    destruct (Z.eqb_spec bi (-1)) as [->|Hne]; cbn [negb andb];
      [intros [= <-]; split; assumption|].
    case_bool_decide as Hfresh; cbn [negb];
      [intros [= <-]; split; assumption|].
    destruct (find_best_match_positive pred golds thr)
      as (i & g & Hr & Hg & Hthr & Hpos); [rewrite Eb; exact Hne|].
    rewrite Eb in Hr. injection Hr as -> ->.
    rewrite index_of_nat, Hg. intros [= <-]. split; cbn.
    + rewrite len_app, Hlen. reflexivity.
    + apply Forall_app. split; [exact Hall|].
      apply List.Forall_cons; [|apply List.Forall_nil].
      unfold boundary_error_ok. cbn.
      split; [exact Hin|].
      split; [eapply list_elem_of_lookup_2; exact Hg|].
      split; [|repeat split; assumption].
      apply (first_exact_none pred (matched_gold m) golds 0 Ef i g Hg).
      exact Hfresh.
Qed.

Lemma match_all_errors (all_preds golds : list Span)
    (exact_match_only : bool) (thr : Q) (preds : list Span)
    (m m' : Matching) :
  Forall (fun p => p ∈ all_preds) preds ->
  errors_ok all_preds golds thr m ->
  match_all golds exact_match_only thr preds m = Some m' ->
  errors_ok all_preds golds thr m'.
Proof.
  intros Hin. revert m. induction Hin as [|pred preds Hp _ IH]; intros m Hok.
  - cbn. intros [= <-]. exact Hok.
  - cbn. destruct (match_prediction golds exact_match_only thr m pred)
      as [m1|] eqn:E1; [|discriminate].
    apply IH. eapply match_prediction_errors; eassumption.
Qed.

(** The record of a non-empty gold list is built from loop variables
    that are consistent. *)
Lemma evaluate_nonempty (preds golds : list Span) (exact_match_only : bool)
    (thr : Q) (m : Metrics) :
  golds <> [] ->
  evaluate_spans preds golds exact_match_only thr = Some m ->
  exists lm : Matching,
    m = summarize preds golds lm
    /\ matching_ok golds (len preds) lm
    /\ errors_ok preds golds thr lm.
Proof.
  intros Hne. unfold evaluate_spans.
  destruct golds as [|g0 golds]; [congruence|].
  destruct (match_all_ok (g0 :: golds) exact_match_only thr preds 0
              no_matching (no_matching_ok _)) as (lm & Hm & Hok).
  rewrite Hm. intros [= <-]. exists lm. split; [reflexivity|].
  split; [exact Hok|].
  apply (match_all_errors preds (g0 :: golds) exact_match_only thr preds
           no_matching lm); [|split; [reflexivity|constructor]|exact Hm].
  apply Forall_forall. intros x Hx. exact Hx.
Qed.

(** X23: [evaluate_spans] records one boundary error per partial match,
    in the order of the predictions. Each pairs a prediction with a
    gold span of different text or boundaries, with their boundary
    distance and their IoU, and that IoU is positive and at least the
    threshold. *)
Theorem boundary_errors_recorded :
  forall (predictions gold_standard : list Span) (exact_match_only : bool)
         (iou_threshold : Q) (m : Metrics),
    evaluate_spans predictions gold_standard exact_match_only iou_threshold
    = Some m ->
    len (boundary_errors m) = partial_matches m
    /\ Forall (boundary_error_ok predictions gold_standard iou_threshold)
         (boundary_errors m).
Proof.
  intros predictions gold_standard exact_match_only iou_threshold m H.
  destruct gold_standard as [|g0 golds].
  - unfold evaluate_spans in H. injection H as <-. cbn.
    split; [reflexivity|constructor].
  - assert (Hne : g0 :: golds <> []) by discriminate.
    destruct (evaluate_nonempty _ _ _ _ _ Hne H)
      as (lm & -> & _ & Hlen & Hall).
    cbn. split; assumption.
Qed.

(** C = [0, 9) alone against gold A = [0, 10) and B = [0, 8). *)
Lemma boundary_errors_recorded_witness :
  let m := summarize [pred_C] gold_AB
             {| matched_gold := {[0]}; m_exact_matches := 0;
                m_partial_matches := 1;
                m_boundary_errors :=
                  [{| predicted := pred_C; gold := span "A" 0 10;
                      distance := 0; iou := (9 # 10)%Q |}] |} in
  len (boundary_errors m) = partial_matches m
  /\ Forall (boundary_error_ok [pred_C] gold_AB (1 # 2)) (boundary_errors m).
Proof.
  apply (boundary_errors_recorded [pred_C] gold_AB false (1 # 2)).
  vm_compute. reflexivity.
Defined.

(** *** Predictions that are the first gold spans *)

Lemma match_prediction_next (done rest : list Span) (pred : Span)
    (exact_match_only : bool) (thr : Q) (m : Matching) :
  first_matched (length done) m ->
  exists m' : Matching,
    match_prediction (done ++ pred :: rest) exact_match_only thr m pred
    = Some m'
    /\ first_matched (S (length done)) m'.
Proof.
  intros (He & Hp & Herr & Hsize & Hin).
  assert (Hfresh : 0 + Z.of_nat (length done) ∉ matched_gold m)
    by (rewrite Hin; lia).
  assert (Ef : first_exact pred (matched_gold m)
                 (enumerate (done ++ pred :: rest))
               = Some (0 + Z.of_nat (length done))).
  { apply first_exact_at with (g := pred).
    - intros j Hj. apply Hin. lia.
    - exact Hfresh.
    - apply list_lookup_middle. reflexivity.
    - apply same_span_refl. }
  unfold match_prediction. rewrite Ef.
  rewrite bool_decide_eq_true_2 by (eexists; reflexivity). cbn [negb andb].
  eexists. split; [reflexivity|].
  pose proof (size_add_fresh _ _ Hfresh) as Hs.
  unfold first_matched. cbn.
  split; [lia|]. split; [exact Hp|]. split; [exact Herr|]. split; [lia|].
  intros i. rewrite elem_of_union, elem_of_singleton, Hin. lia.
Qed.

Lemma match_all_prefix (exact_match_only : bool) (thr : Q)
    (preds done rest : list Span) (m : Matching) :
  first_matched (length done) m ->
  exists m' : Matching,
    match_all (done ++ preds ++ rest) exact_match_only thr preds m = Some m'
    /\ first_matched (length done + length preds) m'.
Proof.
  revert done m. induction preds as [|pred preds IH]; intros done m Hm.
  - exists m. split; [reflexivity|]. cbn. rewrite Nat.add_0_r. exact Hm.
  - cbn [match_all].
    destruct (match_prediction_next done (preds ++ rest) pred
                exact_match_only thr m Hm) as (m1 & Hm1 & Hok1).
    change ((pred :: preds) ++ rest) with (pred :: (preds ++ rest)).
    rewrite Hm1.
    replace (S (length done)) with (length (done ++ [pred])) in Hok1
      by (rewrite length_app; cbn; lia).
    destruct (IH (done ++ [pred]) m1 Hok1) as (m' & Hm' & Hok').
    rewrite <- app_assoc in Hm'. cbn in Hm'.
    exists m'. split; [exact Hm'|].
    rewrite length_app in Hok'. cbn in Hok' |- *.
    replace (length done + S (length preds))%nat
      with (length done + 1 + length preds)%nat by lia.
    exact Hok'.
Qed.

Lemma ratio_self (a : Z) : 0 < a -> (ratio a a == 1)%Q.
Proof.
  intros Ha. unfold ratio, Qdiv. apply Qmult_inv_r.
  unfold Qeq. cbn. lia.
Qed.

Lemma ratio_zero (b : Z) : (ratio 0 b == 0)%Q.
Proof. unfold ratio, Qdiv. apply Qmult_0_l. Qed.

Lemma ratio_pos (a b : Z) : 0 < a -> 0 < b -> (0 < ratio a b)%Q.
Proof.
  intros Ha Hb. unfold ratio. apply Qlt_shift_div_l.
  - unfold Qlt. cbn. lia.
  - rewrite Qmult_0_l. unfold Qlt. cbn. lia.
Qed.

(** The f1 formula on two non-negative rates is 0 exactly when one of
    them is. *)
Lemma f1_zero_iff (p r : Q) :
  (0 <= p)%Q -> (0 <= r)%Q ->
  ((if Qlt_bool 0 (p + r) then 2 * (p * r) / (p + r) else 0) == 0)%Q
  <-> (p == 0)%Q \/ (r == 0)%Q.
Proof.
  intros Hp Hr. destruct (Qlt_bool 0 (p + r)) eqn:E.
  - apply Qlt_bool_iff in E. split.
    + intros H.
      assert (Hn : (2 * (p * r) == 0)%Q).
      { rewrite <- (Qmult_div_r (2 * (p * r)) (p + r))
          by (intros Hz; rewrite Hz in E; exact (Qlt_irrefl 0 E)).
        rewrite H. apply Qmult_0_r. }
      destruct (Qeq_dec p 0) as [?|Hp0]; [left; assumption|right].
      destruct (Qeq_dec r 0) as [?|Hr0]; [assumption|exfalso].
      assert (Hpp : (0 < p)%Q).
      { apply Qle_lteq in Hp. destruct Hp as [Hlt|Heq]; [exact Hlt|].
        exfalso. apply Hp0. symmetry. exact Heq. }
      assert (Hrp : (0 < r)%Q).
      { apply Qle_lteq in Hr. destruct Hr as [Hlt|Heq]; [exact Hlt|].
        exfalso. apply Hr0. symmetry. exact Heq. }
      nra.
    + intros [H|H]; rewrite H; unfold Qdiv;
        rewrite ?Qmult_0_l, ?Qmult_0_r; reflexivity.
  - apply Qlt_bool_false in E. split; [|reflexivity]. intros _.
    left. lra.
Qed.

(** X24: when the predictions are the first spans of the gold list, in
    the same order, every prediction is an exact match with the gold
    span at its own position, whatever the flag and the threshold:
    there is no partial match, no false positive and no boundary error,
    and the false negatives are the gold spans left. When there is a
    prediction the precision is 1; when moreover no gold span is left
    (identical lists) recall and f1 are 1 too. *)
Theorem predictions_prefix_of_gold :
  forall (predictions rest : list Span) (exact_match_only : bool)
         (iou_threshold : Q),
    predictions ++ rest <> [] ->
    exists m : Metrics,
      evaluate_spans predictions (predictions ++ rest) exact_match_only
        iou_threshold = Some m
      /\ exact_matches m = len predictions
      /\ partial_matches m = 0
      /\ true_positives m = Some (len predictions)
      /\ false_positives m = 0
      /\ false_negatives m = len rest
      /\ boundary_errors m = []
      /\ (predictions <> [] -> (precision m == 1)%Q)
      /\ (predictions <> [] -> rest = [] ->
          (recall m == 1)%Q /\ (f1 m == 1)%Q).
Proof.
  intros predictions rest exact_match_only iou_threshold Hne.
  destruct (match_all_prefix exact_match_only iou_threshold predictions []
              rest no_matching) as (lm & Hm & He & Hp & Herr & Hsize & _).
  { unfold first_matched, no_matching. cbn. rewrite size_empty.
    repeat split; try lia; set_solver. }
  cbn [app length Nat.add] in Hm, He, Hsize.
  unfold evaluate_spans.
  destruct (predictions ++ rest) as [|g0 gs] eqn:Eg; [congruence|].
  rewrite Hm. exists (summarize predictions (g0 :: gs) lm).
  split; [reflexivity|].
  assert (Hlen : len (g0 :: gs) = len predictions + len rest)
    by (rewrite <- Eg; apply len_app).
  fold (len predictions) in He.
  assert (Hs : Z.of_nat (size (matched_gold lm)) = len predictions)
    by (unfold len; lia).
  pose proof (len_nonneg predictions) as Hp0.
  pose proof (len_nonneg rest) as Hr0.
  assert (Hpos : predictions <> [] -> 0 < len predictions).
  { destruct predictions; [congruence|]. intros _. unfold len. cbn. lia. }
  assert (Hprec : predictions <> [] ->
                  (precision (summarize predictions (g0 :: gs) lm) == 1)%Q).
  { intros Hn. specialize (Hpos Hn). cbn. rewrite He, Hp.
    replace (len predictions + 0
             + (len predictions - (len predictions + 0)))
      with (len predictions) by lia.
    replace (len predictions + 0) with (len predictions) by lia.
    destruct (Z.gtb_spec (len predictions) 0) as [_|?]; [|lia].
    apply ratio_self. exact Hpos. }
  cbn [summarize exact_matches partial_matches true_positives
       false_positives false_negatives boundary_errors].
  rewrite He, Hp, Herr, Hs, Hlen.
  split; [reflexivity|]. split; [reflexivity|].
  split; [f_equal; lia|]. split; [lia|]. split; [lia|].
  split; [reflexivity|]. split; [exact Hprec|].
  intros Hn Hrest. specialize (Hprec Hn). specialize (Hpos Hn).
  assert (Hrec : (recall (summarize predictions (g0 :: gs) lm) == 1)%Q).
  { cbn. rewrite He, Hp, Hs, Hlen. subst rest.
    change (len (@nil Span)) with 0.
    replace (len predictions + 0
             + (len predictions + 0 - len predictions))
      with (len predictions) by lia.
    replace (len predictions + 0) with (len predictions) by lia.
    destruct (Z.gtb_spec (len predictions) 0) as [_|?]; [|lia].
    apply ratio_self. exact Hpos. }
  split; [exact Hrec|].
  change (f1 (summarize predictions (g0 :: gs) lm))
    with (let p := precision (summarize predictions (g0 :: gs) lm) in
          let r := recall (summarize predictions (g0 :: gs) lm) in
          if Qlt_bool 0 (p + r) then (2 * (p * r) / (p + r))%Q else 0%Q).
  cbv zeta.
  set (p := precision (summarize predictions (g0 :: gs) lm)) in *.
  set (r := recall (summarize predictions (g0 :: gs) lm)) in *.
  clearbody p r.
  assert (E : Qlt_bool 0 (p + r) = true)
    by (apply Qlt_bool_iff; rewrite Hprec, Hrec; reflexivity).
  rewrite E, Hprec, Hrec. reflexivity.
Qed.

(** One prediction A against gold A and B. *)
Lemma predictions_prefix_of_gold_witness :
  exists m : Metrics,
    evaluate_spans pred_one (pred_one ++ [span "B" 2 3]) false (1 # 2)
    = Some m
    /\ exact_matches m = len pred_one
    /\ partial_matches m = 0
    /\ true_positives m = Some (len pred_one)
    /\ false_positives m = 0
    /\ false_negatives m = len [span "B" 2 3]
    /\ boundary_errors m = []
    /\ (pred_one <> [] -> (precision m == 1)%Q)
    /\ (pred_one <> [] -> [span "B" 2 3] = [] ->
        (recall m == 1)%Q /\ (f1 m == 1)%Q).
Proof.
  apply (predictions_prefix_of_gold pred_one [span "B" 2 3] false (1 # 2)).
  discriminate.
Defined.

(** *** Rates *)

(** X25: for a non-empty gold list the recall is the partial-match
    accuracy (both are the true positives over the number of gold
    spans), and the exact-match accuracy is no greater. *)
Theorem recall_is_partial_accuracy :
  forall (predictions gold_standard : list Span) (exact_match_only : bool)
         (iou_threshold : Q) (m : Metrics),
    gold_standard <> [] ->
    evaluate_spans predictions gold_standard exact_match_only iou_threshold
    = Some m ->
    recall m = accuracy_partial m
    /\ (accuracy_exact m <= accuracy_partial m)%Q.
Proof.
  intros predictions gold_standard exact_match_only iou_threshold m Hne H.
  destruct (evaluate_nonempty _ _ _ _ _ Hne H)
    as (lm & -> & (He & Hp & Hsize & Hn & Hrange) & _).
  destruct gold_standard as [|g0 golds]; [congruence|].
  set (gold_standard := g0 :: golds) in *.
  assert (Hpos : 0 < len gold_standard) by (unfold len; cbn; lia).
  cbn [summarize recall accuracy_partial accuracy_exact].
  replace (m_exact_matches lm + m_partial_matches lm
           + (len gold_standard - Z.of_nat (size (matched_gold lm))))
    with (len gold_standard) by lia.
  destruct (Z.gtb_spec (len gold_standard) 0) as [_|?]; [|lia].
  subst gold_standard. split; [reflexivity|].
  unfold ratio, Qdiv. apply Qmult_le_compat_r.
  - unfold Qle. cbn. lia.
  - apply Qinv_le_0_compat. unfold Qle. cbn. lia.
Qed.

(** One prediction A against gold A and B. *)
Lemma recall_is_partial_accuracy_witness :
  let m := summarize pred_one gold_two
             {| matched_gold := {[0]}; m_exact_matches := 1;
                m_partial_matches := 0; m_boundary_errors := [] |} in
  recall m = accuracy_partial m
  /\ (accuracy_exact m <= accuracy_partial m)%Q.
Proof.
  apply (recall_is_partial_accuracy pred_one gold_two false (1 # 2)).
  - discriminate.
  - vm_compute. reflexivity.
Defined.

(** X26: for a non-empty gold list, f1 is 0 exactly when no prediction
    was matched, exactly or partially. *)
Theorem f1_zero_iff_no_match :
  forall (predictions gold_standard : list Span) (exact_match_only : bool)
         (iou_threshold : Q) (m : Metrics),
    gold_standard <> [] ->
    evaluate_spans predictions gold_standard exact_match_only iou_threshold
    = Some m ->
    (f1 m == 0)%Q <-> exact_matches m + partial_matches m = 0.
Proof.
  intros predictions gold_standard exact_match_only iou_threshold m Hne H.
  destruct (evaluate_nonempty _ _ _ _ _ Hne H)
    as (lm & -> & (He & Hp & Hsize & Hn & Hrange) & _).
  assert (Hbound : Z.of_nat (size (matched_gold lm)) <= len gold_standard).
  { unfold len. apply inj_le, size_indices. exact Hrange. }
  set (tp := m_exact_matches lm + m_partial_matches lm) in *.
  assert (Hprec : precision (summarize predictions gold_standard lm)
                  = if len predictions >? 0 then ratio tp (len predictions)
                    else 0%Q).
  { cbn. fold tp.
    replace (tp + (len predictions - tp)) with (len predictions) by lia.
    reflexivity. }
  assert (Hrec : recall (summarize predictions gold_standard lm)
                 = if len gold_standard >? 0 then ratio tp (len gold_standard)
                   else 0%Q).
  { cbn. fold tp.
    replace (tp + (len gold_standard - Z.of_nat (size (matched_gold lm))))
      with (len gold_standard) by lia.
    reflexivity. }
  change (f1 (summarize predictions gold_standard lm))
    with (let p := precision (summarize predictions gold_standard lm) in
          let r := recall (summarize predictions gold_standard lm) in
          if Qlt_bool 0 (p + r) then (2 * (p * r) / (p + r))%Q else 0%Q).
  cbv zeta. change (exact_matches (summarize predictions gold_standard lm)
                    + partial_matches (summarize predictions gold_standard lm))
    with tp.
  rewrite Hprec, Hrec.
  assert (Htp : tp = 0 \/ 0 < tp) by lia.
  destruct Htp as [Hz|Hpos].
  - rewrite Hz. split; [reflexivity|]. intros _. apply f1_zero_iff.
    + destruct (len predictions >? 0); [rewrite ratio_zero|]; apply Qle_refl.
    + destruct (len gold_standard >? 0); [rewrite ratio_zero|]; apply Qle_refl.
    + left. destruct (len predictions >? 0); [apply ratio_zero|reflexivity].
  - destruct (Z.gtb_spec (len predictions) 0) as [Hlp|?]; [|lia].
    destruct (Z.gtb_spec (len gold_standard) 0) as [Hlg|?]; [|lia].
    pose proof (ratio_pos tp (len predictions) Hpos Hlp) as Hp1.
    pose proof (ratio_pos tp (len gold_standard) Hpos Hlg) as Hr1.
    split; [|lia]. intros Hf. exfalso.
    apply f1_zero_iff in Hf; try (apply Qlt_le_weak; assumption).
    destruct Hf as [Hf|Hf]; rewrite Hf in *.
    + exact (Qlt_irrefl 0 Hp1).
    + exact (Qlt_irrefl 0 Hr1).
Qed.

(** C = [0, 9) alone against gold A and B, at threshold 1: no match. *)
Lemma f1_zero_iff_no_match_witness :
  let m := summarize [pred_C] gold_AB no_matching in
  (f1 m == 0)%Q <-> exact_matches m + partial_matches m = 0.
Proof.
  apply (f1_zero_iff_no_match [pred_C] gold_AB false 1).
  - discriminate.
  - vm_compute. reflexivity.
Defined.

(** X27: without predictions, a non-empty gold list is all false
    negatives: every count but that one is 0, and so is every rate. *)
Theorem no_predictions_all_false_negatives :
  forall (gold_standard : list Span) (exact_match_only : bool)
         (iou_threshold : Q),
    gold_standard <> [] ->
    exists m : Metrics,
      evaluate_spans [] gold_standard exact_match_only iou_threshold = Some m
      /\ exact_matches m = 0
      /\ partial_matches m = 0
      /\ true_positives m = Some 0
      /\ false_positives m = 0
      /\ false_negatives m = len gold_standard
      /\ boundary_errors m = []
      /\ (precision m == 0)%Q
      /\ (recall m == 0)%Q
      /\ (f1 m == 0)%Q
      /\ (accuracy_exact m == 0)%Q
      /\ (accuracy_partial m == 0)%Q.
Proof.
  intros gold_standard exact_match_only iou_threshold Hne.
  destruct gold_standard as [|g0 golds]; [congruence|].
  set (gold_standard := g0 :: golds) in *.
  exists (summarize [] gold_standard no_matching).
  split; [reflexivity|]. cbn [summarize exact_matches partial_matches
    true_positives false_positives false_negatives boundary_errors
    no_matching m_exact_matches m_partial_matches m_boundary_errors
    matched_gold accuracy_exact accuracy_partial].
  rewrite size_empty. change (0 + 0) with 0.
  assert (Hrec : (recall (summarize [] gold_standard no_matching) == 0)%Q).
  { cbn. destruct (_ >? 0); [apply ratio_zero|reflexivity]. }
  split; [reflexivity|]. split; [reflexivity|]. split; [reflexivity|].
  split; [reflexivity|]. split; [lia|]. split; [reflexivity|].
  split; [reflexivity|]. split; [exact Hrec|].
  split; [|subst gold_standard; split; apply ratio_zero].
  change (f1 (summarize [] gold_standard no_matching))
    with (let p := precision (summarize [] gold_standard no_matching) in
          let r := recall (summarize [] gold_standard no_matching) in
          if Qlt_bool 0 (p + r) then (2 * (p * r) / (p + r))%Q else 0%Q).
  cbv zeta. apply f1_zero_iff.
  - apply Qle_refl.
  - rewrite Hrec. apply Qle_refl.
  - left. reflexivity.
Qed.

(** No prediction against gold A and B. *)
Lemma no_predictions_all_false_negatives_witness :
  exists m : Metrics,
    evaluate_spans [] gold_AB false (1 # 2) = Some m
    /\ exact_matches m = 0
    /\ partial_matches m = 0
    /\ true_positives m = Some 0
    /\ false_positives m = 0
    /\ false_negatives m = len gold_AB
    /\ boundary_errors m = []
    /\ (precision m == 0)%Q
    /\ (recall m == 0)%Q
    /\ (f1 m == 0)%Q
    /\ (accuracy_exact m == 0)%Q
    /\ (accuracy_partial m == 0)%Q.
Proof.
  apply (no_predictions_all_false_negatives gold_AB false (1 # 2)).
  discriminate.
Defined.

(** *** The report *)

Lemma and_then_ok (a b : Printed) :
  snd a = None -> snd b = None ->
  snd (and_then a b) = None
  /\ length (fst (and_then a b)) = (length (fst a) + length (fst b))%nat.
Proof.
  intros Ha Hb. unfold and_then. rewrite Ha. cbn.
  split; [exact Hb|apply length_app].
Qed.

Lemma print_span_ok (label : string) (s : Span) :
  has_keys s ->
  snd (print_span label s) = None
  /\ length (fst (print_span label s)) = 1%nat.
Proof.
  intros ([t Ht] & [st Hst] & [en Hen]). unfold print_span.
  rewrite Ht, Hst, Hen. cbn. split; reflexivity.
Qed.

Lemma print_boundary_errors_ok (fixed2 : Q -> string)
    (errors : list BoundaryError) :
  Forall (fun e => has_keys (predicted e) /\ has_keys (gold e)) errors ->
  snd (print_boundary_errors fixed2 errors) = None
  /\ length (fst (print_boundary_errors fixed2 errors))
     = (4 * length errors)%nat.
Proof.
  induction 1 as [|e errors [Hp Hg] _ [IH1 IH2]]; [split; reflexivity|].
  cbn [print_boundary_errors].
  destruct (print_span_ok "Predicted: " _ Hp) as [P1 P2].
  destruct (print_span_ok "Gold:      " _ Hg) as [G1 G2].
  assert (Hone : snd (print_boundary_error fixed2 e) = None
                 /\ length (fst (print_boundary_error fixed2 e)) = 4%nat).
  { unfold print_boundary_error.
    destruct (and_then_ok _ _ P1 G1) as [A1 A2].
    destruct (and_then_ok _ (print ("Boundary offset: Â±"
                +:+ str (distance e) +:+ " chars, IoU: "
                +:+ fixed2 (iou e))) A1 eq_refl) as [B1 B2].
    destruct (and_then_ok _ (print "") B1 eq_refl) as [C1 C2].
    split; [exact C1|]. rewrite C2, B2, A2, P2, G2. reflexivity. }
  destruct Hone as [O1 O2].
  destruct (and_then_ok _ _ O1 IH1) as [R1 R2].
  split; [exact R1|]. rewrite R2, O2, IH2. cbn [length]. lia.
Qed.




End EvaluationExtras.
